(** * fsdn2plot: a shallow embedding of [fsdn2plot.py]

    The script reads two station lists, fetches one hour of waveforms per
    station from an FDSN server, runs the ObsPy processing chain on each
    stream and draws one panel per station.  The embedding follows the
    script section by section and keeps its names.

    - A Python [str] is the sequence of its characters ([PyStr.str]), a
      character being the bytes of its UTF-8 encoding; [str.strip] and
      [str.split] act on characters, and the whitespace they recognise is
      all of [str.isspace], the no-break space and the other Unicode spaces
      included.  The strings that the script keeps (tokens, names, labels)
      and the lines of a file are [string]s, the UTF-8 bytes of the text.
    - Python [float]s are binary64 values ([PrimFloat.float]); a Python
      number that may be an [int] or a [float] is a [pynum].
    - The dictionary [estacion_nombres] is a [gmap string string].
    - ObsPy is a parameter ([ObsPy]): its calls return a [result], an
      exception being an instance of [Exception], as the [except] clause of
      the script has it.  NumPy arrays are lists of floats.
    - Matplotlib is a record of what was drawn: a figure is its size and its
      axes, an axes its lines, texts and settings.  The calls that build
      the figure in memory return normally; [plt.subplots_adjust],
      [fig.autofmt_xdate] and the tick formatter change nothing that is
      recorded and are left out; [ax = [ax]] for a single station makes
      [ax] a list in every case, which it is here from the start.
    - What lies outside the script and the libraries is an [Entorno]: the
      files and how reading them ends, and the three calls after the loop
      that write the image, open the window and print, each of which may
      raise.  [proceso] is the script in any environment; [main] is the
      script where every file that is there can be read to its end and
      these three calls return. *)

From Stdlib Require Import Floats ZArith Ascii String List Bool Lia.
From stdpp Require Import gmap strings.
Import ListNotations.

Set Warnings "-inexact-float".
Local Open Scope string_scope.
Local Open Scope list_scope.

(** ** Python strings *)

Module PyStr.

(** One character, as the bytes of its UTF-8 encoding; a [str], as the
    sequence of its characters. *)
Definition char : Type := string.
Definition str : Type := list char.

(** A continuation byte of UTF-8, [10xxxxxx]. *)
Definition is_cont (c : ascii) : bool :=
  let n := nat_of_ascii c in (128 <=? n)%nat && (n <? 192)%nat.

(** A byte that is not a character on its own in UTF-8. *)
Definition non_ascii (c : ascii) : bool := (128 <=? nat_of_ascii c)%nat.

(** The first byte of [ch] is a continuation byte. *)
Definition cont_start (ch : char) : bool :=
  match ch with
  | String d _ => is_cont d
  | EmptyString => false
  end.

(** The characters of a text given by its UTF-8 bytes: a byte below 128 is
    a character, a byte from 128 on is one character together with the
    continuation bytes that follow it. *)
Fixpoint chars (s : string) : str :=
  match s with
  | EmptyString => []
  | String c t =>
      match chars t with
      | ch :: rest =>
          if non_ascii c && cont_start ch then String c ch :: rest
          else String c EmptyString :: ch :: rest
      | [] => [String c EmptyString]
      end
  end.

(** The UTF-8 bytes of a [str]. *)
Definition join (l : str) : string := fold_right String.append EmptyString l.

Definition utf8 (bytes : list nat) : char :=
  fold_right (fun n s => String (ascii_of_nat n) s) EmptyString bytes.

(** The characters [c] with [c.isspace()]: TAB, LF, VT, FF, CR, the four
    separators FS GS RS US, the space, NEL (U+0085), the no-break space
    (U+00A0), U+1680, U+2000 to U+200A, the line and paragraph separators
    (U+2028, U+2029), U+202F, U+205F and the ideographic space (U+3000). *)
Definition whitespace : list char :=
  List.map utf8
    [[9]; [10]; [11]; [12]; [13]; [28]; [29]; [30]; [31]; [32];
     [194; 133]; [194; 160]; [225; 154; 128];
     [226; 128; 128]; [226; 128; 129]; [226; 128; 130]; [226; 128; 131];
     [226; 128; 132]; [226; 128; 133]; [226; 128; 134]; [226; 128; 135];
     [226; 128; 136]; [226; 128; 137]; [226; 128; 138];
     [226; 128; 168]; [226; 128; 169]; [226; 128; 175];
     [226; 129; 159]; [227; 128; 128]]%nat.

(** [c.isspace()] *)
Definition isspace (c : char) : bool := existsb (String.eqb c) whitespace.

Fixpoint lstrip (s : str) : str :=
  match s with
  | [] => []
  | c :: t => if isspace c then lstrip t else s
  end.

Fixpoint rstrip (s : str) : str :=
  match s with
  | [] => []
  | c :: t =>
      match rstrip t with
      | [] => if isspace c then [] else [c]
      | t' => c :: t'
      end
  end.

(** [s.strip()] *)
Definition strip (s : str) : str := rstrip (lstrip s).

(** The longest whitespace-free prefix of [s] and what follows it. *)
Fixpoint take_token (s : str) : str * str :=
  match s with
  | [] => ([], [])
  | c :: t =>
      if isspace c then ([], s)
      else let (w, r) := take_token t in (c :: w, r)
  end.

(** [s.split()]: the maximal runs of non-whitespace characters, in order.
    A character that is not whitespace either starts a run of its own (when
    whitespace or the end follows) or extends the run that starts right
    after it. *)
Fixpoint split (s : str) : list str :=
  match s with
  | [] => []
  | c :: t =>
      if isspace c then split t
      else match t with
           | [] => [[c]]
           | c' :: _ =>
               if isspace c' then [c] :: split t
               else match split t with
                    | w :: ws => (c :: w) :: ws
                    | [] => [[c]]
                    end
           end
  end.

(** [s.split(None, 1)]: the first token, then whatever follows the
    whitespace after it (trailing whitespace included), when there is
    something. *)
Definition split1 (s : str) : list str :=
  match lstrip s with
  | [] => []
  | s1 =>
      let (w, r) := take_token s1 in
      match lstrip r with
      | [] => [w]
      | r1 => [w; r1]
      end
  end.

(** [s.split(sep)] for a one-byte separator, on the bytes of [s]: empty
    pieces are kept and the empty string gives one empty piece.  A byte
    below 128 is never part of another character, so the pieces are those
    of the [str]. *)
Fixpoint split_on (sep : ascii) (s : string) : list string :=
  match s with
  | EmptyString => [EmptyString]
  | String c t =>
      if Ascii.eqb c sep then EmptyString :: split_on sep t
      else match split_on sep t with
           | w :: ws => String c w :: ws
           | [] => [String c EmptyString]
           end
  end.

(** Number of occurrences of a byte. *)
Fixpoint count (sep : ascii) (s : string) : nat :=
  match s with
  | EmptyString => 0
  | String c t => (if Ascii.eqb c sep then 1 else 0) + count sep t
  end.

Definition no_space (s : str) : bool := forallb (fun c => negb (isspace c)) s.
Definition only_space (s : str) : bool := forallb isspace s.

End PyStr.

(** ** Exceptions

    [exn] stands for an instance of Python's [Exception] (the class name is
    kept for reading).  These are what the library calls raise and what
    [except Exception] catches; [SystemExit], raised by [sys.exit], is not
    one of them: in [proceso] it ends the run at once. *)

Inductive exn : Type := Exception (cls : string).

Inductive result (A : Type) : Type :=
  | Ok (a : A)
  | Raise (e : exn).
Arguments Ok {A} a.
Arguments Raise {A} e.

#[global] Instance result_ret : MRet result := fun A a => Ok a.
#[global] Instance result_bind : MBind result := fun A B f m =>
  match m with
  | Ok a => f a
  | Raise e => Raise e
  end.

#[global] Instance result_fmap : FMap result := fun A B f m =>
  match m with
  | Ok a => Ok (f a)
  | Raise e => Raise e
  end.

Definition is_ok {A} (r : result A) : bool :=
  match r with Ok _ => true | Raise _ => false end.

(** ** Python numbers *)

(** The binary64 value nearest to an integer ([float(z)]). *)
Definition Z2float (z : Z) : float := SF2Prim (binary_normalize prec emax z 0 false).

Inductive pynum : Type :=
  | PyInt (z : Z)
  | PyFloat (f : float).

Definition to_float (x : pynum) : float :=
  match x with
  | PyInt z => Z2float z
  | PyFloat f => f
  end.

(** [a > b].  Two ints compare as integers; with a float involved the
    comparison is the binary64 one (the ints the script compares with, 0, 3
    and 60, convert exactly). *)
Definition py_gt (a b : pynum) : bool :=
  match a, b with
  | PyInt x, PyInt y => (y <? x)%Z
  | _, _ => PrimFloat.ltb (to_float b) (to_float a)
  end.

(** [a < b] *)
Definition py_lt (a b : pynum) : bool := py_gt b a.

(** [max(a, b)]: the first argument, unless the second is greater. *)
Definition py_max (a b : pynum) : pynum := if py_gt b a then b else a.

(** [a * b] *)
Definition py_mul (a b : pynum) : pynum :=
  match a, b with
  | PyInt x, PyInt y => PyInt (x * y)
  | _, _ => PyFloat (to_float a * to_float b)
  end.

(** [a / b], true division; a zero divisor raises. *)
Definition py_truediv (a b : pynum) : result pynum :=
  if PrimFloat.is_zero (to_float b) then Raise (Exception "ZeroDivisionError")
  else Ok (PyFloat (to_float a / to_float b)).

(** *** Fixed-point formatting, [format(x, '.<d>f')] *)

Definition digit_char (n : Z) : ascii := ascii_of_nat (48 + Z.to_nat (n mod 10)).

(** The [d] low decimal digits of [n], zero padded. *)
Fixpoint digits_fixed (d : nat) (n : Z) : string :=
  match d with
  | O => EmptyString
  | S d' => digits_fixed d' (n / 10) ++ String (digit_char n) EmptyString
  end.

(** Decimal digits of a non-negative integer, at least one. *)
Fixpoint digits_fuel (fuel : nat) (n : Z) : string :=
  match fuel with
  | O => EmptyString
  | S fuel' =>
      (if (n <? 10)%Z then EmptyString else digits_fuel fuel' (n / 10))
      ++ String (digit_char n) EmptyString
  end.

Definition digits (n : Z) : string := digits_fuel (S (Z.to_nat (Z.log2 n))) n.

(** [n / 10^d] written with [d] decimals. *)
Definition fixed_point (d : nat) (n : Z) : string :=
  let p := (10 ^ Z.of_nat d)%Z in
  digits (n / p) ++
  match d with
  | O => EmptyString
  | _ => "." ++ digits_fixed d (n mod p)
  end.

(** Nearest integer to [num / den], ties to even ([den > 0], [num >= 0]). *)
Definition round_half_even (num den : Z) : Z :=
  let q := (num / den)%Z in
  let r := (num mod den)%Z in
  match (2 * r ?= den)%Z with
  | Lt => q
  | Gt => (q + 1)%Z
  | Eq => if Z.even q then q else (q + 1)%Z
  end.

Definition sign_str (s : bool) : string := if s then "-" else "".

(** The exact binary value [m * 2^e] is rounded to [d] decimals, ties to
    even; infinities and NaN print as [inf] and [nan]. *)
Definition format_float_f (d : nat) (x : float) : string :=
  match Prim2SF x with
  | S754_nan => "nan"
  | S754_infinity s => sign_str s ++ "inf"
  | S754_zero s => sign_str s ++ fixed_point d 0
  | S754_finite s m e =>
      let p := (10 ^ Z.of_nat d)%Z in
      let n := match e with
               | Zneg k => round_half_even (Zpos m * p) (2 ^ Zpos k)
               | _ => (Zpos m * p * 2 ^ e)%Z
               end in
      sign_str s ++ fixed_point d n
  end.

Definition py_format_f (d : nat) (x : pynum) : string := format_float_f d (to_float x).

(** ** NumPy arrays of float64, as lists *)

(** [a * k] *)
Definition np_mul (a : list float) (k : float) : list float :=
  List.map (fun x => (x * k)%float) a.

(** [abs(a)] *)
Definition np_abs (a : list float) : list float := List.map PrimFloat.abs a.

(** [np.isfinite(a)] *)
Definition np_isfinite (a : list float) : list bool := List.map PrimFloat.is_finite a.

(** [np.maximum]: the first operand when it is NaN or not below the second. *)
Definition np_maximum (a b : float) : float :=
  if PrimFloat.leb b a || PrimFloat.is_nan a then a else b.

(** [a.max()]: a reduction with [np.maximum], so that a NaN anywhere gives
    NaN; an array of size zero raises. *)
Definition np_max (a : list float) : result float :=
  match a with
  | [] => Raise (Exception "ValueError")
  | x :: t => Ok (fold_left np_maximum t x)
  end.

(** [a[mask]] for a boolean mask, which must have the length of [a]. *)
Fixpoint bool_index {A} (a : list A) (mask : list bool) : result (list A) :=
  match a, mask with
  | [], [] => Ok []
  | x :: a', b :: mask' =>
      r ← bool_index a' mask';
      Ok (if b then x :: r else r)
  | _, _ => Raise (Exception "IndexError")
  end.

(** ** ObsPy *)

(** A point in time, as ObsPy keeps it: nanoseconds since the epoch. *)
Record UTCDateTime : Type := { utc_ns : Z }.

(** [t - seconds] for an integer number of seconds. *)
Definition utc_minus_seconds (t : UTCDateTime) (seconds : Z) : UTCDateTime :=
  {| utc_ns := utc_ns t - seconds * 10 ^ 9 |}.

(** What the script reads of a trace: [tr.data], [tr.times("matplotlib")]
    and [tr.stats.endtime]. *)
Record Trace : Type := {
  tr_data : list float;
  tr_times_matplotlib : list float;
  tr_stats_endtime : UTCDateTime
}.

Definition Stream : Type := list Trace.

(** [st[i]] *)
Definition stream_getitem (st : Stream) (i : nat) : result Trace :=
  match st !! i with
  | Some tr => Ok tr
  | None => Raise (Exception "IndexError")
  end.

(** The keyword arguments of [get_waveforms]. *)
Record Request : Type := {
  network : string;
  station : string;
  location : string;
  channel : string;
  starttime : UTCDateTime;
  endtime : UTCDateTime;
  attach_response : bool
}.

(** The calls [st.filter(type, ...)] of the script. *)
Inductive filter_call : Type :=
  | highpass (freq : float) (corners : Z) (zerophase : bool)
  | lowpass (freq : float) (corners : Z) (zerophase : bool)
  | bandstop (freqmin freqmax : pynum) (corners : Z) (zerophase : bool).

(** The library as the script uses it.  [get_waveforms] also takes the
    number of the call (the server may answer the same request differently
    each time); [remove_response] and [stream_filter] return the stream they
    have changed in place. *)
Record ObsPy : Type := {
  client : Type;
  Client : string -> result client;
  UTCDateTime_now : UTCDateTime;
  utc_sub : UTCDateTime -> UTCDateTime -> float;
  matplotlib_date : UTCDateTime -> float;
  get_waveforms : client -> nat -> Request -> result Stream;
  remove_response : string -> bool -> bool -> Stream -> result Stream;
  stream_filter : filter_call -> Stream -> result Stream
}.

(** A difference of two times is positive only when the first is the later
    one. *)
Definition utc_sub_sound (L : ObsPy) : Prop :=
  forall a b : UTCDateTime,
    (utc_ns a <= utc_ns b)%Z -> PrimFloat.ltb 0 (utc_sub L a b) = false.

(** ** Matplotlib: what has been drawn *)

(** [ax.plot(x, y, fmt)] *)
Record Line2D : Type := {
  line_x : list float;
  line_y : list float;
  line_fmt : string
}.

(** [ax.text(x, y, s, transform=ax.transAxes, ha=.., va=.., color='black',
    fontsize=..)] *)
Record Text : Type := {
  text_x : float;
  text_y : float;
  text_s : string;
  text_ha : string;
  text_va : string;
  text_fontsize : Z
}.

Record Axes : Type := {
  ax_lines : list Line2D;
  ax_texts : list Text;
  ax_spines_visible : bool;
  ax_yaxis_visible : bool;
  ax_xlim : option (float * float);
  ax_major_minutes : option Z;
  ax_minor_minutes : option Z;
  ax_xlabel : option string
}.

Definition new_axes : Axes :=
  {| ax_lines := []; ax_texts := []; ax_spines_visible := true;
     ax_yaxis_visible := true; ax_xlim := None; ax_major_minutes := None;
     ax_minor_minutes := None; ax_xlabel := None |}.

Definition ax_plot (x y : list float) (fmt : string) (a : Axes) : Axes :=
  {| ax_lines := ax_lines a ++ [{| line_x := x; line_y := y; line_fmt := fmt |}];
     ax_texts := ax_texts a; ax_spines_visible := ax_spines_visible a;
     ax_yaxis_visible := ax_yaxis_visible a; ax_xlim := ax_xlim a;
     ax_major_minutes := ax_major_minutes a;
     ax_minor_minutes := ax_minor_minutes a; ax_xlabel := ax_xlabel a |}.

Definition ax_text (x y : float) (s ha va : string) (fontsize : Z) (a : Axes) : Axes :=
  {| ax_lines := ax_lines a;
     ax_texts := ax_texts a ++
       [{| text_x := x; text_y := y; text_s := s; text_ha := ha; text_va := va;
           text_fontsize := fontsize |}];
     ax_spines_visible := ax_spines_visible a;
     ax_yaxis_visible := ax_yaxis_visible a; ax_xlim := ax_xlim a;
     ax_major_minutes := ax_major_minutes a;
     ax_minor_minutes := ax_minor_minutes a; ax_xlabel := ax_xlabel a |}.

(** The four [spines[..].set_visible(False)], [yaxis.set_visible(False)] and
    [set_xlim(lo, hi)] that end each iteration. *)
Definition ax_frame_off (lo hi : float) (a : Axes) : Axes :=
  {| ax_lines := ax_lines a; ax_texts := ax_texts a;
     ax_spines_visible := false; ax_yaxis_visible := false;
     ax_xlim := Some (lo, hi);
     ax_major_minutes := ax_major_minutes a;
     ax_minor_minutes := ax_minor_minutes a; ax_xlabel := ax_xlabel a |}.

(** [xaxis.set_major_locator(MinuteLocator(interval=major))] and
    [xaxis.set_minor_locator(MinuteLocator(interval=minor))], as they show
    on one axes. *)
Definition ax_set_locators (major minor : Z) (a : Axes) : Axes :=
  {| ax_lines := ax_lines a; ax_texts := ax_texts a;
     ax_spines_visible := ax_spines_visible a;
     ax_yaxis_visible := ax_yaxis_visible a; ax_xlim := ax_xlim a;
     ax_major_minutes := Some major; ax_minor_minutes := Some minor;
     ax_xlabel := ax_xlabel a |}.

(** [set_xlabel(label)] *)
Definition ax_set_xlabel (label : string) (a : Axes) : Axes :=
  {| ax_lines := ax_lines a; ax_texts := ax_texts a;
     ax_spines_visible := ax_spines_visible a;
     ax_yaxis_visible := ax_yaxis_visible a; ax_xlim := ax_xlim a;
     ax_major_minutes := ax_major_minutes a;
     ax_minor_minutes := ax_minor_minutes a;
     ax_xlabel := Some label |}.

Record Figure : Type := {
  fig_width : pynum;
  fig_height : pynum;
  fig_dpi : Z;
  fig_sharex : bool;
  fig_facecolor : string;
  fig_axes : list Axes
}.

(** [plt.subplots(nrows=.., ncols=1, figsize=(w, h), dpi=.., sharex=True)]
    followed by [fig.patch.set_facecolor('white')]. *)
Definition plt_subplots (nrows : nat) (w h : pynum) (dpi : Z) (sharex : bool) : Figure :=
  {| fig_width := w; fig_height := h; fig_dpi := dpi; fig_sharex := sharex;
     fig_facecolor := "white"; fig_axes := replicate nrows new_axes |}.

(** ** The script *)

(** *** Configuración general *)

Definition FDSN_SERVER_URL : string := "http://127.0.0.1:8080".
Definition VENTANA_SEGUNDOS : Z := 3600.
Definition ARCHIVO_ESTACIONES_NOMBRE : string := "lista_de_estaciones_por_nombre.txt".
Definition IMG_WIDTH_INCHES : pynum := PyInt 9.
Definition IMG_DPI : Z := 100.
Definition IMG_HEIGHT_PER_STATION : pynum := PyFloat 0.5.
Definition OUTPUT_FILENAME : string := "fdsn2plot.png".

(** [sys.argv[1] if len(sys.argv) > 1 else "lista_de_estaciones_por_codigo.txt"] *)
Definition ARCHIVO_ESTACIONES_CODIGO (argv : list string) : string :=
  if (1 <? length argv)%nat then nth 1 argv "" else "lista_de_estaciones_por_codigo.txt".

(** *** Inicialización *)

(** One pass of the loop that fills [estacion_nombres]. *)
Definition nombre_step (estacion_nombres : gmap string string) (line : string)
  : gmap string string :=
  let line := PyStr.strip (PyStr.chars line) in
  match line with
  | [] => estacion_nombres
  | _ =>
      match PyStr.split1 line with
      | [k; v] => <[PyStr.join k := PyStr.join v]> estacion_nombres
      | _ => estacion_nombres
      end
  end.

Definition leer_nombres (f : list string) : gmap string string :=
  fold_left nombre_step f ∅.

(** [(net, full_sta, loc, cha)] *)
Definition estacion : Type := string * string * string * string.

(** One pass of the loop that fills [estaciones]. *)
Definition estacion_step (estaciones : list estacion) (line : string) : list estacion :=
  match PyStr.split (PyStr.strip (PyStr.chars line)) with
  | net :: full_sta :: _ =>
      estaciones ++ [(PyStr.join net, PyStr.join full_sta, "*", "H*")]
  | _ => estaciones
  end.

Definition leer_estaciones (f : list string) : list estacion :=
  fold_left estacion_step f [].

(** *** Figura *)

(** [max(IMG_HEIGHT_PER_STATION * len(estaciones), 3)] *)
Definition IMG_HEIGHT_INCHES (n : nat) : pynum :=
  py_max (py_mul IMG_HEIGHT_PER_STATION (PyInt (Z.of_nat n))) (PyInt 3).

(** *** Graficar *)

(** [splitted[1] if len(splitted) == 2 else full_sta] *)
Definition station_code (full_sta : string) : string :=
  match PyStr.split_on "." full_sta with
  | [_; sta] => sta
  | _ => full_sta
  end.

(** [estacion_nombres.get(sta, sta)] *)
Definition nombre_de (estacion_nombres : gmap string string) (sta : string) : string :=
  default sta (estacion_nombres !! sta).

Section Graficar.

Context (L : ObsPy) (client_fdsn : client L).
Context (ahora t_inicio t_fin : UTCDateTime).
Context (estacion_nombres : gmap string string).

(** The request, the processing chain and [tr = st[0]]. *)
Definition obtener_traza (i : nat) (net sta loc cha : string) : result Trace :=
  st ← get_waveforms L client_fdsn i
         {| network := net; station := sta; location := loc; channel := cha;
            starttime := t_inicio; endtime := t_fin; attach_response := true |};
  st ← remove_response L "ACC" true true st;
  st ← stream_filter L (highpass 0.1 4 true) st;
  st ← stream_filter L (lowpass 10.0 4 true) st;
  st ← stream_filter L (bandstop (PyInt 49) (PyInt 51) 2 true) st;
  stream_getitem st 0.

(** [tr.data * 100.0] *)
Definition data_cm_s2 (tr : Trace) : list float := np_mul (tr_data tr) 100.0.

(** [max(0, ahora - tr.stats.endtime)] *)
Definition lat_sec (tr : Trace) : pynum :=
  py_max (PyInt 0) (PyFloat (utc_sub L ahora (tr_stats_endtime tr))).

(** The conditional expression that formats the latency. *)
Definition lat_str (lat : pynum) : result string :=
  if py_lt lat (PyInt 60) then Ok ("(latencia " +:+ py_format_f 1 lat +:+ "s)")
  else
    minutes ← py_truediv lat (PyInt 60);
    Ok ("(latencia " +:+ py_format_f 1 minutes +:+ "m)").

(** [abs(data_cm_s2).max()] *)
Definition peak (tr : Trace) : result float := np_max (np_abs (data_cm_s2 tr)).

(** The rest of the [try] block, from the scaling to the blue line; it
    draws only as its last step. *)
Definition trazar (sta : string) (tr : Trace) (a : Axes) : result (string * string * Axes) :=
  let tiempos := tr_times_matplotlib tr in
  let mask := np_isfinite (data_cm_s2 tr) in
  ls ← lat_str (lat_sec tr);
  p ← peak tr;
  let left_label := "[" +:+ format_float_f 2 p +:+ " cm/s²] " +:+ sta in
  x ← bool_index tiempos mask;
  y ← bool_index (data_cm_s2 tr) mask;
  Ok (left_label, ls, ax_plot x y "b-" a).

(** The [try] block. *)
Definition intentar (i : nat) (net sta loc cha : string) (a : Axes)
  : result (string * string * Axes) :=
  tr ← obtener_traza i net sta loc cha;
  trazar sta tr a.

(** The [except Exception] block. *)
Definition sin_datos (sta nombre_estacion : string) (a : Axes) : string * string * string * Axes :=
  ("[Sin datos] " +:+ sta,
   nombre_estacion +:+ " (sin datos)",
   "",
   ax_plot [matplotlib_date L t_inicio; matplotlib_date L t_fin] [0%float; 0%float] "r-" a).

(** What one iteration does to [ax[i]]. *)
Definition panel (i : nat) (e : estacion) (a : Axes) : Axes :=
  let '(net, full_sta, loc, cha) := e in
  let sta := station_code full_sta in
  let nombre_estacion := nombre_de estacion_nombres sta in
  let '(left_label, nombre_estacion, ls, a) :=
    match intentar i net sta loc cha a with
    | Ok (left_label, ls, a') => (left_label, nombre_estacion, ls, a')
    | Raise _ => sin_datos sta nombre_estacion a
    end in
  let a := ax_text (-0.02) 1.0 left_label "right" "top" 8 a in
  let a := ax_text 1.02 1.1 nombre_estacion "left" "top" 8 a in
  let a := match ls with
           | EmptyString => a
           | _ => ax_text 1.02 0.35 ls "left" "top" 5 a
           end in
  ax_frame_off (matplotlib_date L t_inicio) (matplotlib_date L t_fin) a.

(** [ax[i]], which raises out of range. *)
Definition ax_getitem (ax : list Axes) (i : nat) : result Axes :=
  match ax !! i with
  | Some a => Ok a
  | None => Raise (Exception "IndexError")
  end.

(** One iteration of the loop over [enumerate(estaciones)]. *)
Definition graficar_estacion (i : nat) (e : estacion) (ax : list Axes) : result (list Axes) :=
  a ← ax_getitem ax i;
  Ok (<[i := panel i e a]> ax).

(** The loop, from index [i] on. *)
Fixpoint graficar (i : nat) (estaciones : list estacion) (ax : list Axes)
  : result (list Axes) :=
  match estaciones with
  | [] => Ok ax
  | e :: rest =>
      ax' ← graficar_estacion i e ax;
      graficar (S i) rest ax'
  end.

End Graficar.

(** *** Eje x y guardar *)

(** The calls on [ax[-1]].  The axes of a figure made with [sharex=True]
    share the tickers of their x axis, so the locators set through the last
    axes are those of every axes; the label is of the last axes alone. *)
Definition eje_x (sharex : bool) (ax : list Axes) : result (list Axes) :=
  match ax with
  | [] => Raise (Exception "IndexError")
  | _ =>
      let last := pred (length ax) in
      let ax := if sharex then ax_set_locators 10 5 <$> ax
                else alter (ax_set_locators 10 5) last ax in
      Ok (alter (ax_set_xlabel "Tiempo (Hora local)") last ax)
  end.

(** What the run meets outside the script and the libraries.  [archivos]
    says for a path how opening and reading the file to its end goes: the
    lines, each as the iteration over the file yields it, or the exception
    raised on the way (a [UnicodeDecodeError] for bytes that are no text, a
    [PermissionError]); a path that is not there raises in [open].  The
    other three are the calls after the loop. *)
Record Entorno : Type := {
  archivos : gmap string (result (list string));
  plt_savefig : string -> Figure -> result unit;
  plt_show : result unit;
  py_print : string -> result unit
}.

(** [with open(path, "r") as f: for line in f: ...], as far as the lines
    go. *)
Definition leer_archivo (env : Entorno) (path : string) : result (list string) :=
  match archivos env !! path with
  | Some r => r
  | None => Raise (Exception "FileNotFoundError")
  end.

(** How a run ends: the exit status, what was printed, the exception of the
    traceback if one ended it, and the image written by [plt.savefig]. *)
Record Outcome : Type := {
  exit_code : Z;
  stdout : list string;
  traceback : option exn;
  saved : option (string * Figure)
}.

(** An exception nobody catches: traceback, status 1. *)
Definition uncaught (e : exn) : Outcome :=
  {| exit_code := 1; stdout := []; traceback := Some e; saved := None |}.

(** The same once the image is written. *)
Definition uncaught_after (img : string * Figure) (e : exn) : Outcome :=
  {| exit_code := 1; stdout := []; traceback := Some e; saved := Some img |}.

(** [plt.savefig(OUTPUT_FILENAME, ...)], [plt.show()] and the [print] that
    announces the image: the three calls after the loop, none of them in a
    [try]. *)
Definition guardar (env : Entorno) (fig : Figure) : Outcome :=
  match plt_savefig env OUTPUT_FILENAME fig with
  | Raise e => uncaught e
  | Ok _ =>
  match plt_show env with
  | Raise e => uncaught_after (OUTPUT_FILENAME, fig) e
  | Ok _ =>
  match py_print env ("✅ Imagen generada: " +:+ OUTPUT_FILENAME) with
  | Raise e => uncaught_after (OUTPUT_FILENAME, fig) e
  | Ok _ =>
      {| exit_code := 0;
         stdout := ["✅ Imagen generada: " +:+ OUTPUT_FILENAME];
         traceback := None;
         saved := Some (OUTPUT_FILENAME, fig) |}
  end end end.

(** [print("No hay estaciones definidas.")] and [sys.exit(1)]. *)
Definition salir_sin_estaciones (env : Entorno) : Outcome :=
  match py_print env "No hay estaciones definidas." with
  | Raise e => uncaught e
  | Ok _ =>
      {| exit_code := 1; stdout := ["No hay estaciones definidas."];
         traceback := None; saved := None |}
  end.

(** The whole script, top to bottom. *)
Definition proceso (L : ObsPy) (env : Entorno) (argv : list string) : Outcome :=
  match Client L FDSN_SERVER_URL with
  | Raise e => uncaught e
  | Ok client_fdsn =>
  let ahora := UTCDateTime_now L in
  let t_inicio := utc_minus_seconds ahora VENTANA_SEGUNDOS in
  let t_fin := ahora in
  match leer_archivo env ARCHIVO_ESTACIONES_NOMBRE with
  | Raise e => uncaught e
  | Ok f =>
  let estacion_nombres := leer_nombres f in
  match leer_archivo env (ARCHIVO_ESTACIONES_CODIGO argv) with
  | Raise e => uncaught e
  | Ok f =>
  let estaciones := leer_estaciones f in
  match estaciones with
  | [] => salir_sin_estaciones env
  | _ =>
  let fig := plt_subplots (length estaciones) IMG_WIDTH_INCHES
               (IMG_HEIGHT_INCHES (length estaciones)) IMG_DPI true in
  match graficar L client_fdsn ahora t_inicio t_fin estacion_nombres 0 estaciones
          (fig_axes fig) with
  | Raise e => uncaught e
  | Ok ax =>
  match eje_x (fig_sharex fig) ax with
  | Raise e => uncaught e
  | Ok ax =>
      guardar env
        {| fig_width := fig_width fig; fig_height := fig_height fig;
           fig_dpi := fig_dpi fig; fig_sharex := fig_sharex fig;
           fig_facecolor := fig_facecolor fig; fig_axes := ax |}
  end end end end end end.

(** The environment in which the files [fs] (path to lines) are read to
    their end and saving, showing and printing return. *)
Definition entorno_de (fs : gmap string (list string)) : Entorno :=
  {| archivos := Ok <$> fs;
     plt_savefig := fun _ _ => Ok tt;
     plt_show := Ok tt;
     py_print := fun _ => Ok tt |}.

(** The script in that environment. *)
Definition main (L : ObsPy) (argv : list string) (fs : gmap string (list string)) : Outcome :=
  proceso L (entorno_de fs) argv.

(** ** Reading the two files, said without the code

    These definitions say in words of the file format what the loaders are
    compared with below. *)

(** Empty, or beginning with a whitespace character. *)
Definition at_boundary (s : PyStr.str) : bool :=
  match s with
  | [] => true
  | c :: _ => PyStr.isspace c
  end.

(** [Tokens s l]: [l] lists the whitespace-separated tokens of [s], in
    order.  Each token is non-empty, free of whitespace, preceded by
    whitespace only (since the previous token) and followed by whitespace or
    by the end. *)
Inductive Tokens : PyStr.str -> list PyStr.str -> Prop :=
  | Tokens_nil s :
      PyStr.only_space s = true -> Tokens s []
  | Tokens_cons gap w rest l :
      PyStr.only_space gap = true ->
      w <> [] ->
      PyStr.no_space w = true ->
      at_boundary rest = true ->
      Tokens rest l ->
      Tokens (gap ++ w ++ rest) (w :: l).

(** The descriptor a line of the station file stands for: network and
    station identifier are its first two tokens, if it has two. *)
Definition descriptor (line : string) : option estacion :=
  match PyStr.split (PyStr.chars line) with
  | net :: full_sta :: _ => Some (PyStr.join net, PyStr.join full_sta, "*", "H*")
  | _ => None
  end.

(** The first token of a line, if it has one. *)
Definition first_token (line : string) : option string :=
  PyStr.join <$> head (PyStr.split (PyStr.chars line)).

(** [NameLine line key name]: the line is, between optional leading and
    trailing whitespace, the token [key], some whitespace, and the non-empty
    remainder [name], which neither begins nor ends with whitespace. *)
Definition NameLine (line key name : string) : Prop :=
  exists lead k gap v trail : PyStr.str,
    PyStr.chars line = lead ++ k ++ gap ++ v ++ trail /\
    key = PyStr.join k /\ name = PyStr.join v /\
    PyStr.only_space lead = true /\
    k <> [] /\ PyStr.no_space k = true /\
    gap <> [] /\ PyStr.only_space gap = true /\
    at_boundary v = false /\ PyStr.rstrip v = v /\
    PyStr.only_space trail = true.

(** What the loop body of [leer_nombres] makes of a line: the entry it
    stores, if it stores one. *)
Definition name_entry (line : string) : option (string * string) :=
  match PyStr.split1 (PyStr.strip (PyStr.chars line)) with
  | [k; v] => Some (PyStr.join k, PyStr.join v)
  | _ => None
  end.

(** ** The characters of a text

    What [PyStr.chars] gives, said on its own, so that a token or a name
    written back as bytes can be read as characters again. *)

(** Only continuation bytes. *)
Fixpoint all_cont (s : string) : bool :=
  match s with
  | EmptyString => true
  | String c t => PyStr.is_cont c && all_cont t
  end.

(** One character: a single byte, or a byte from 128 on followed by
    continuation bytes. *)
Definition wf_char (ch : PyStr.char) : bool :=
  match ch with
  | EmptyString => false
  | String c EmptyString => true
  | String c t => PyStr.non_ascii c && all_cont t
  end.

(** The first character begins with a continuation byte (a stray one). *)
Definition starts_cont (l : PyStr.str) : bool :=
  match l with
  | ch :: _ => PyStr.cont_start ch
  | [] => false
  end.

(** A single byte below 128. *)
Definition single_ascii (ch : PyStr.char) : bool :=
  match ch with
  | String c EmptyString => negb (PyStr.non_ascii c)
  | _ => false
  end.

(** A well-formed sequence of characters: each is one character, and one
    that begins with a continuation byte follows a single byte below 128 or
    nothing (after any other byte it would be part of the character
    before). *)
Fixpoint wf (l : PyStr.str) : bool :=
  match l with
  | [] => true
  | ch :: rest =>
      wf_char ch && (if starts_cont rest then single_ascii ch else true) && wf rest
  end.

(** ** Binary64 values as [spec_float]s *)

Definition sf_nan (x : spec_float) : bool :=
  match x with
  | S754_nan => true
  | _ => false
  end.

(** How two comparisons in a row combine: [Eq] is neutral, [Lt] and [Gt]
    do not mix. *)
Definition comp_join (c1 c2 : comparison) : option comparison :=
  match c1, c2 with
  | Eq, c | c, Eq => Some c
  | Lt, Lt => Some Lt
  | Gt, Gt => Some Gt
  | _, _ => None
  end.

(** ** Reading a panel

    Each iteration writes the left label first, the display name second and
    the latency, when there is one, third. *)

Definition panel_texts (a : Axes) : list string := text_s <$> ax_texts a.
Definition left_text (a : Axes) : option string := panel_texts a !! 0%nat.
Definition display_name (a : Axes) : option string := panel_texts a !! 1%nat.
Definition latency_text (a : Axes) : option string := panel_texts a !! 2%nat.

(** The same drawing: lines, texts and limits. *)
Definition same_drawing (a b : Axes) : Prop :=
  ax_lines a = ax_lines b /\ ax_texts a = ax_texts b /\ ax_xlim a = ax_xlim b.

(** The figure a run draws when it gets as far as drawing: the panels of
    the stations in list order, the locators of the shared x axis on each
    and the label of the axis on the last one. *)
Definition figura (L : ObsPy) (cl : client L) (fn fc : list string) : Figure :=
  let ahora := UTCDateTime_now L in
  let t_inicio := utc_minus_seconds ahora VENTANA_SEGUNDOS in
  let estaciones := leer_estaciones fc in
  {| fig_width := IMG_WIDTH_INCHES;
     fig_height := IMG_HEIGHT_INCHES (length estaciones);
     fig_dpi := IMG_DPI; fig_sharex := true; fig_facecolor := "white";
     fig_axes := alter (ax_set_xlabel "Tiempo (Hora local)")
                   (pred (length estaciones))
                   (ax_set_locators 10 5 <$>
                    imap (fun j e => panel L cl ahora t_inicio ahora (leer_nombres fn)
                                       j e new_axes) estaciones) |}.

(** The exact value of a height, as a fraction in lowest terms with a
    power of two below: [None] for an infinity or a NaN. *)
Fixpoint lowest_terms (fuel : nat) (m : Z) (k : positive) : Z * positive :=
  match fuel, k with
  | S fuel', xO k' => if Z.even m then lowest_terms fuel' (m / 2) k' else (m, k)
  | _, _ => (m, k)
  end.

Definition float_exact (x : float) : option (Z * positive) :=
  match Prim2SF x with
  | S754_zero _ => Some (0%Z, 1%positive)
  | S754_finite s m e =>
      let v := if s then Zneg m else Zpos m in
      match e with
      | Zneg k => Some (lowest_terms (Pos.to_nat k) v (2 ^ k)%positive)
      | _ => Some ((v * 2 ^ e)%Z, 1%positive)
      end
  | _ => None
  end.

Definition height_exact (n : nat) : option (Z * positive) :=
  float_exact (to_float (IMG_HEIGHT_INCHES n)).

(** [max(n/2, 3)] as a fraction in lowest terms. *)
Definition half_or_three (n : nat) : Z * positive :=
  if (n <? 6)%nat then (3%Z, 1%positive)
  else if Nat.even n then (Z.of_nat n / 2, 1%positive)%Z
  else (Z.of_nat n, 2%positive).





(** The line that announces the image. *)
Definition anuncio : string := "✅ Imagen generada: fdsn2plot.png".


(** [shows ... e name]: the panel of station [e] displays [name] at the
    right, followed by [ (sin datos)] when the [try] block raised. *)
Definition shows (L : ObsPy) (cl : client L) (ahora t_inicio t_fin : UTCDateTime)
    (nombres : gmap string string) (i : nat) (e : estacion) (name : string) : Prop :=
  let '(net, full_sta, loc, cha) := e in
  display_name (panel L cl ahora t_inicio t_fin nombres i e new_axes) =
  Some (if is_ok (intentar L cl ahora t_inicio t_fin i net (station_code full_sta) loc cha
                    new_axes)
        then name else name +:+ " (sin datos)").

(** Every line of the name file that begins with the code and has a
    remainder gives the name shown; a code that no line begins with is shown
    bare. *)
Definition every_entry_is_shown (L : ObsPy) (cl : client L)
    (ahora t_inicio t_fin : UTCDateTime) (fn : list string) (i : nat) (e : estacion) : Prop :=
  let sta := station_code (e.1.1.2) in
  (forall line name, In line fn -> NameLine line sta name ->
     shows L cl ahora t_inicio t_fin (leer_nombres fn) i e name) /\
  ((forall line, In line fn -> first_token line <> Some sta) ->
     shows L cl ahora t_inicio t_fin (leer_nombres fn) i e sta).

(** ** A small library to run the script with

    Station [CDM] has four samples, one of them infinite, the last one 75
    seconds old; station [SJS] has three finite samples, the last one 12.5
    seconds old; no other station has data.  The processing steps are four
    different arithmetic maps, so that their order shows in the result. *)

Definition cdm_trace : Trace :=
  {| tr_data := [0.001; -0.0255; infinity; 0.01]%float;
     tr_times_matplotlib := [1; 2; 3; 4]%float;
     tr_stats_endtime := {| utc_ns := 925 * 10 ^ 9 |} |}.

Definition sjs_trace : Trace :=
  {| tr_data := [1.5; -2.25; 0.5]%float;
     tr_times_matplotlib := [1; 2; 3]%float;
     tr_stats_endtime := {| utc_ns := 987500 * 10 ^ 6 |} |}.

Definition map_data (f : float -> float) (st : Stream) : Stream :=
  List.map (fun tr => {| tr_data := List.map f (tr_data tr);
                         tr_times_matplotlib := tr_times_matplotlib tr;
                         tr_stats_endtime := tr_stats_endtime tr |}) st.

Definition demo_utc_sub (a b : UTCDateTime) : float :=
  if (utc_ns a <=? utc_ns b)%Z then 0%float
  else (Z2float (utc_ns a - utc_ns b) / 1e9)%float.

Definition demo : ObsPy :=
  {| client := unit;
     Client := fun _ => Ok tt;
     UTCDateTime_now := {| utc_ns := 1000 * 10 ^ 9 |};
     utc_sub := demo_utc_sub;
     matplotlib_date := fun t => (Z2float (utc_ns t) / 86400e9)%float;
     get_waveforms := fun _ _ r =>
       if String.eqb (station r) "CDM" then Ok [cdm_trace]
       else if String.eqb (station r) "SJS" then Ok [sjs_trace]
       else Raise (Exception "FDSNNoDataException");
     remove_response := fun _ _ _ st => Ok (map_data (fun x => x + 1)%float st);
     stream_filter := fun f st =>
       match f with
       | highpass _ _ _ => Ok (map_data (fun x => x * 2)%float st)
       | lowpass _ _ _ => Ok (map_data (fun x => x - 3)%float st)
       | bandstop _ _ _ _ => Ok (map_data (fun x => x * x)%float st)
       end |}.

Definition demo_ahora : UTCDateTime := UTCDateTime_now demo.
Definition demo_t_inicio : UTCDateTime := utc_minus_seconds demo_ahora VENTANA_SEGUNDOS.

Definition demo_nombres : list string :=
  ["CDM Cerro de la Muerte" +:+ String "010" ""; "XYZ"; "  SJS   San José  "].

Definition demo_codigos : list string :=
  ["OV OV.CDM" +:+ String "010" ""; String "010" ""; "OV JACO extra"; "solo"; "TC SJS"].

Definition demo_fs : gmap string (list string) :=
  <[ARCHIVO_ESTACIONES_NOMBRE := demo_nombres]>
    (<["lista_de_estaciones_por_codigo.txt" := demo_codigos]> ∅).


(** The same code on two lines of the name file. *)
Definition nombres_repetidos : list string := ["CDM Uno"; "CDM Dos"].

(** Eight stations, of which only [CDM] and [SJS] have data. *)
Definition ocho_codigos : list string :=
  ["OV OV.CDM"; "OV A1"; "OV A2"; "TC SJS"; "OV A3"; "OV A4"; "OV A5"; "OV A6"].

Definition ocho_fs : gmap string (list string) :=
  <["ocho.txt" := ocho_codigos]> demo_fs.

(** The no-break space (U+00A0), the em space (U+2003) and the ideographic
    space (U+3000). *)
Definition nbsp : string := PyStr.utf8 [194; 160]%nat.
Definition em_space : string := PyStr.utf8 [226; 128; 131]%nat.
Definition ideographic_space : string := PyStr.utf8 [227; 128; 128]%nat.

(** A name file whose name bytes are no text: the file opens, reading it
    raises. *)
Definition entorno_ilegible : Entorno :=
  {| archivos := <[ARCHIVO_ESTACIONES_NOMBRE := Raise (Exception "UnicodeDecodeError")]>
                   (Ok <$> demo_fs);
     plt_savefig := fun _ _ => Ok tt;
     plt_show := Ok tt;
     py_print := fun _ => Ok tt |}.

(** A standard output that cannot take the check mark of the last line. *)
Definition entorno_sin_utf8 : Entorno :=
  {| archivos := Ok <$> demo_fs;
     plt_savefig := fun _ _ => Ok tt;
     plt_show := Ok tt;
     py_print := fun s => if forallb (fun c => negb (PyStr.non_ascii c)) (list_ascii_of_string s)
                          then Ok tt else Raise (Exception "UnicodeEncodeError") |}.

(** An image that cannot be written. *)
Definition entorno_sin_disco : Entorno :=
  {| archivos := Ok <$> demo_fs;
     plt_savefig := fun _ _ => Raise (Exception "PermissionError");
     plt_show := Ok tt;
     py_print := fun _ => Ok tt |}.

(** The code [CDM] on two lines, the second with an em space after the code
    and a no-break space at the end. *)
Definition nombres_unicode : list string :=
  ["CDM Uno"; "CDM" +:+ em_space +:+ "Dos" +:+ nbsp].

(** ** More vocabulary for the properties of the script *)

(** A token: not empty, no whitespace character in it. *)
Definition is_token (s : string) : Prop :=
  s <> EmptyString /\ PyStr.no_space (PyStr.chars s) = true.

(** A display name as the loader stores it: not empty, no whitespace
    character at either end. *)
Definition is_name (s : string) : Prop :=
  at_boundary (PyStr.chars s) = false /\ PyStr.rstrip (PyStr.chars s) = PyStr.chars s.

(** The library [L] with another server behind [get_waveforms]. *)
Definition with_server (L : ObsPy)
    (g : client L -> nat -> Request -> result Stream) : ObsPy :=
  {| client := client L;
     Client := Client L;
     UTCDateTime_now := UTCDateTime_now L;
     utc_sub := utc_sub L;
     matplotlib_date := matplotlib_date L;
     get_waveforms := g;
     remove_response := remove_response L;
     stream_filter := stream_filter L |}.

(** Where a text stands and how: position, alignments, font size. *)
Definition text_place (t : Text) : float * float * string * string * Z :=
  (text_x t, text_y t, text_ha t, text_va t, text_fontsize t).

(** The settings of an axes besides what is drawn on it. *)
Definition ax_settings (a : Axes)
  : bool * bool * option (float * float) * option Z * option Z * option string :=
  (ax_spines_visible a, ax_yaxis_visible a, ax_xlim a,
   ax_major_minutes a, ax_minor_minutes a, ax_xlabel a).

(** Servers for the edge cases: a stream without traces, a trace without
    samples, a trace with a NaN. *)
Definition servidor_sin_trazas (L : ObsPy) : ObsPy :=
  with_server L (fun _ _ _ => Ok []).

Definition traza_vacia : Trace :=
  {| tr_data := []; tr_times_matplotlib := [];
     tr_stats_endtime := {| utc_ns := 990 * 10 ^ 9 |} |}.

Definition traza_nan : Trace :=
  {| tr_data := [0.5; nan; -2]%float; tr_times_matplotlib := [1; 2; 3]%float;
     tr_stats_endtime := {| utc_ns := 990 * 10 ^ 9 |} |}.

Definition servidor_de (tr : Trace) (L : ObsPy) : ObsPy :=
  with_server L (fun _ _ _ => Ok [tr]).

(** * Facts *)

(** ** Strings *)

Section StringFacts.

Import PyStr.

#[local] Arguments isspace : simpl never.
#[local] Arguments is_cont : simpl never.
#[local] Arguments non_ascii : simpl never.

Lemma str_app_nil_l (s : string) : "" +:+ s = s.
Proof. reflexivity. Qed.

Lemma str_app_cons (c : ascii) (s t : string) : String c s +:+ t = String c (s +:+ t).
Proof. reflexivity. Qed.

Lemma str_app_nil_r (s : string) : s +:+ "" = s.
Proof. induction s as [|c s IH]; [reflexivity|]. rewrite str_app_cons. by f_equal. Qed.

Lemma str_app_assoc (a b c : string) : (a +:+ b) +:+ c = a +:+ b +:+ c.
Proof. induction a as [|x a IH]; [reflexivity|]. rewrite !str_app_cons. by f_equal. Qed.

Lemma str_app_eq_nil (a b : string) : a +:+ b = "" -> a = "" /\ b = "".
Proof. destruct a; [by rewrite str_app_nil_l|]. rewrite str_app_cons. discriminate. Qed.

Lemma count_app (sep : ascii) (a b : string) :
  count sep (a +:+ b) = (count sep a + count sep b)%nat.
Proof.
  induction a as [|x a IH]; [reflexivity|].
  rewrite str_app_cons. cbn [count]. rewrite IH. lia.
Qed.

Lemma str_length_app (a b : string) :
  String.length (a +:+ b) = (String.length a + String.length b)%nat.
Proof. induction a as [|x a IH]; [reflexivity|]. rewrite str_app_cons. cbn. by rewrite IH. Qed.

(** *** Characters and bytes *)

Lemma join_nil : join [] = "".
Proof. reflexivity. Qed.

Lemma join_cons (ch : char) (l : str) : join (ch :: l) = ch +:+ join l.
Proof. reflexivity. Qed.

Lemma join_app (a b : str) : join (a ++ b) = join a +:+ join b.
Proof.
  induction a as [|ch a IH]; [reflexivity|].
  cbn [app]. rewrite !join_cons, IH. by rewrite str_app_assoc.
Qed.

(** Cutting a text into characters loses nothing. *)
Lemma join_chars (s : string) : join (chars s) = s.
Proof.
  induction s as [|c s IH]; [reflexivity|]. cbn [chars].
  destruct (chars s) as [|ch rest].
  - cbn in IH. by subst s.
  - destruct (non_ascii c && cont_start ch); rewrite !join_cons in *;
      rewrite ?str_app_cons, ?str_app_nil_l; by rewrite IH.
Qed.

Lemma is_cont_non_ascii (c : ascii) : is_cont c = true -> non_ascii c = true.
Proof. unfold is_cont, non_ascii. by intros [? _]%andb_prop. Qed.

Lemma wf_char_not_empty (ch : char) : wf_char ch = true -> ch <> "".
Proof. by destruct ch. Qed.

Lemma wf_cons (ch : char) (l : str) :
  wf (ch :: l) = true <->
  wf_char ch = true /\ (starts_cont l = true -> single_ascii ch = true) /\ wf l = true.
Proof.
  cbn [wf]. rewrite !andb_true_iff. destruct (starts_cont l); split.
  - intros [[? ?] ?]. auto.
  - intros (? & H & ?). auto.
  - intros [[? ?] ?]. repeat split; auto. discriminate.
  - intros (? & _ & ?). auto.
Qed.

(** What [chars] gives is well formed. *)
Lemma wf_chars (s : string) : wf (chars s) = true.
Proof.
  induction s as [|c s IH]; [done|]. cbn [chars].
  destruct (chars s) as [|ch rest] eqn:E; [done|].
  apply wf_cons in IH as (Hch & Hadj & Hrest).
  destruct (non_ascii c && cont_start ch) eqn:Hj.
  - apply andb_prop in Hj as [Hc Hs]. apply wf_cons. split; [|split; [|done]].
    + destruct ch as [|d t]; [done|]. cbn in Hs. cbn [wf_char]. rewrite Hc. cbn.
      rewrite Hs. cbn. destruct t as [|d' t']; [done|].
      cbn [wf_char] in Hch. by apply andb_prop in Hch as [_ ?].
    + intros Hr. specialize (Hadj Hr). destruct ch as [|d [|]]; try done.
      cbn [single_ascii] in Hadj. cbn [cont_start] in Hs.
      apply is_cont_non_ascii in Hs. by rewrite Hs in Hadj.
  - apply wf_cons. split; [done|]. split; [|by apply wf_cons].
    cbn [starts_cont single_ascii]. intros Hs. rewrite Hs, andb_true_r in Hj. by rewrite Hj.
Qed.

Lemma wf_app (a b : str) : wf (a ++ b) = true -> wf a = true /\ wf b = true.
Proof.
  induction a as [|ch a IH]; [done|]. cbn [app].
  intros (Hch & Hadj & Hab)%wf_cons. destruct (IH Hab) as [Ha Hb].
  split; [|done]. apply wf_cons. split; [done|]. split; [|done].
  intros Hs. apply Hadj. by destruct a.
Qed.

(** A run of continuation bytes in front of characters that do not begin
    with one is a character of its own. *)
Lemma chars_cont_run (t : string) (l : str) :
  t <> "" -> all_cont t = true -> starts_cont l = false -> chars (join l) = l ->
  chars (t +:+ join l) = t :: l.
Proof.
  intros Ht Hc Hl Hj. induction t as [|d t IH]; [done|].
  cbn [all_cont] in Hc. apply andb_prop in Hc as [Hd Hc].
  rewrite str_app_cons. cbn [chars]. destruct t as [|d' t'].
  - rewrite str_app_nil_l, Hj. destruct l as [|ch rest]; [done|].
    cbn [starts_cont] in Hl. by rewrite Hl, andb_false_r.
  - rewrite IH by done. cbn [cont_start].
    cbn [all_cont] in Hc. apply andb_prop in Hc as [Hd' _].
    by rewrite (is_cont_non_ascii d Hd), Hd'.
Qed.

(** The characters of the bytes of well-formed characters are these
    characters. *)
Lemma chars_join (l : str) : wf l = true -> chars (join l) = l.
Proof.
  induction l as [|ch l IH]; [done|].
  intros (Hch & Hadj & Hl)%wf_cons. specialize (IH Hl).
  rewrite join_cons. destruct ch as [|c t]; [done|]. destruct t as [|d t'].
  - rewrite str_app_cons, str_app_nil_l. cbn [chars]. rewrite IH.
    destruct l as [|ch' rest]; [done|].
    destruct (cont_start ch') eqn:Hs; [|by rewrite andb_false_r].
    specialize (Hadj Hs). cbn [single_ascii] in Hadj.
    apply negb_true_iff in Hadj. by rewrite Hadj.
  - cbn [wf_char] in Hch. apply andb_prop in Hch as [Hc Ht].
    assert (starts_cont l = false) as Hs.
    { destruct (starts_cont l); [|done]. by specialize (Hadj eq_refl). }
    rewrite str_app_cons. cbn [chars].
    rewrite (chars_cont_run (String d t') l) by done.
    cbn [cont_start]. cbn [all_cont] in Ht. apply andb_prop in Ht as [Hd _].
    by rewrite Hc, Hd.
Qed.

(** A piece of a text, cut at characters, is well formed and has these
    characters. *)
Lemma wf_piece (s : string) (a w b : str) : chars s = a ++ w ++ b -> wf w = true.
Proof.
  intros E. pose proof (wf_chars s) as H. rewrite E in H.
  apply wf_app in H as [_ H]. by apply wf_app in H as [H _].
Qed.

Lemma chars_join_piece (s : string) (a w b : str) :
  chars s = a ++ w ++ b -> chars (join w) = w.
Proof. intros E. apply chars_join. by eapply wf_piece. Qed.

Lemma join_not_empty (l : str) : wf l = true -> l <> [] -> join l <> "".
Proof.
  destruct l as [|ch l]; [done|]. intros (Hch & _)%wf_cons _.
  rewrite join_cons. intros [E _]%str_app_eq_nil. by apply wf_char_not_empty in Hch.
Qed.

(** *** Boundaries *)

Lemma only_space_app (a b : str) : only_space (a ++ b) = only_space a && only_space b.
Proof. apply forallb_app. Qed.

Lemma no_space_app (a b : str) : no_space (a ++ b) = no_space a && no_space b.
Proof. apply forallb_app. Qed.

Lemma only_space_boundary (s : str) : only_space s = true -> at_boundary s = true.
Proof. destruct s as [|c s]; [done|]. cbn. by intros [? _]%andb_prop. Qed.

Lemma no_space_boundary (s : str) :
  no_space s = true -> s <> [] -> at_boundary s = false.
Proof.
  destruct s as [|c s]; [done|]. cbn. intros [H _]%andb_prop _.
  by apply negb_true_iff.
Qed.

Lemma at_boundary_app (a b : str) : a <> [] -> at_boundary (a ++ b) = at_boundary a.
Proof. by destruct a. Qed.

(** *** [lstrip] *)

Lemma lstrip_id (s : str) : at_boundary s = false -> lstrip s = s.
Proof. destruct s as [|c s]; [done|]. cbn. by intros ->. Qed.

Lemma lstrip_only_space (s : str) : only_space s = true -> lstrip s = [].
Proof.
  induction s as [|c s IH]; [done|]. cbn.
  intros [-> ?]%andb_prop. auto.
Qed.

Lemma lstrip_app (gap s : str) : only_space gap = true -> lstrip (gap ++ s) = lstrip s.
Proof.
  induction gap as [|c gap IH]; [done|].
  cbn. intros [-> ?]%andb_prop. auto.
Qed.

Lemma lstrip_spec (s : str) :
  exists lead, s = lead ++ lstrip s /\ only_space lead = true /\
               (lstrip s = [] \/ at_boundary (lstrip s) = false).
Proof.
  induction s as [|c s (lead & Hs & Hl & Hb)].
  - exists []. auto.
  - cbn [lstrip]. destruct (isspace c) eqn:Hc.
    + exists (c :: lead). cbn [app]. rewrite <- Hs. cbn. rewrite Hc. auto.
    + exists []. cbn. auto.
Qed.

(** *** [rstrip] *)

Lemma rstrip_only_space (s : str) : only_space s = true -> rstrip s = [].
Proof.
  induction s as [|c s IH]; [done|]. cbn.
  intros [-> ?]%andb_prop. by rewrite IH.
Qed.

Lemma rstrip_cons (c : char) (s : str) :
  rstrip s <> [] -> rstrip (c :: s) = c :: rstrip s.
Proof. cbn. by destruct (rstrip s). Qed.

Lemma rstrip_app (a b : str) : rstrip b <> [] -> rstrip (a ++ b) = a ++ rstrip b.
Proof.
  intros Hb. induction a as [|c a IH]; [done|].
  cbn [app]. rewrite rstrip_cons; rewrite IH; [done|].
  intros [_ ?]%app_eq_nil. done.
Qed.

Lemma rstrip_app_only_space (a t : str) :
  only_space t = true -> rstrip (a ++ t) = rstrip a.
Proof.
  intros Ht. induction a as [|c a IH].
  - by apply rstrip_only_space.
  - cbn. by rewrite IH.
Qed.

Lemma rstrip_spec (s : str) :
  exists trail, s = rstrip s ++ trail /\ only_space trail = true.
Proof.
  induction s as [|c s (trail & Hs & Ht)].
  - by exists [].
  - cbn [rstrip]. destruct (rstrip s) as [|c' r] eqn:Hr.
    + cbn [app] in Hs. subst trail.
      destruct (isspace c) eqn:Hc.
      * exists (c :: s). cbn. by rewrite Hc.
      * by exists s.
    + exists trail. split; [|done]. by rewrite Hs at 1.
Qed.

Lemma rstrip_idemp (s : str) : rstrip (rstrip s) = rstrip s.
Proof.
  induction s as [|c s IH]; [done|]. cbn [rstrip].
  destruct (rstrip s) as [|c' r] eqn:Hr.
  - destruct (isspace c) eqn:Hc; [done|]. cbn. by rewrite Hc.
  - rewrite rstrip_cons; [by rewrite IH|]. by rewrite IH.
Qed.

Lemma rstrip_boundary (s : str) :
  at_boundary s = false -> at_boundary (rstrip s) = false.
Proof.
  destruct s as [|c s]; [done|]. cbn. intros Hc.
  destruct (rstrip s); by rewrite ?Hc.
Qed.

(** The part that [rstrip] keeps is kept whole when something is put in
    front of it. *)
Lemma rstrip_suffix (a b : str) :
  rstrip (a ++ b) = a ++ b -> b <> [] -> rstrip b = b.
Proof.
  intros H Hb. destruct (rstrip b) as [|c r] eqn:Hr.
  - exfalso. destruct (rstrip_spec b) as (trail & Hbt & Ht).
    rewrite Hr in Hbt. cbn [app] in Hbt. subst trail.
    rewrite rstrip_app_only_space in H by done.
    destruct (rstrip_spec a) as (trail & Ha & Hta).
    rewrite H in Ha.
    assert (length a = (length a + length b + length trail)%nat) as Hlen.
    { rewrite Ha at 1. rewrite !length_app. lia. }
    destruct b; [done|]. cbn in Hlen. lia.
  - rewrite <- Hr. rewrite rstrip_app in H by (by rewrite Hr).
    by apply app_inv_head in H.
Qed.

(** *** [take_token] *)

Lemma take_token_spec (s w r : str) :
  take_token s = (w, r) ->
  s = w ++ r /\ no_space w = true /\ at_boundary r = true.
Proof.
  revert w r. induction s as [|c s IH]; intros w r.
  - intros [= <- <-]. done.
  - cbn [take_token]. destruct (isspace c) eqn:Hc.
    + intros [= <- <-]. cbn. by rewrite Hc.
    + destruct (take_token s) as [w' r'] eqn:Ht. intros [= <- <-].
      destruct (IH _ _ eq_refl) as (-> & Hw & Hr).
      unfold no_space in *. cbn [forallb]. by rewrite Hc, Hw.
Qed.

Lemma take_token_app (w r : str) :
  no_space w = true -> at_boundary r = true -> take_token (w ++ r) = (w, r).
Proof.
  intros Hw Hr. induction w as [|c w IH].
  - destruct r as [|c r]; [done|]. cbn in *. by rewrite Hr.
  - unfold no_space in *. cbn [forallb] in Hw.
    apply andb_prop in Hw as [Hc%negb_true_iff Hw].
    cbn [app take_token]. by rewrite Hc, IH.
Qed.

End StringFacts.

(** ** [split], [split1], [split_on] *)

Section SplitFacts.

Import PyStr.

#[local] Arguments isspace : simpl never.
#[local] Arguments is_cont : simpl never.
#[local] Arguments non_ascii : simpl never.

Lemma split_only_space (s : str) : only_space s = true -> split s = [].
Proof.
  induction s as [|c s IH]; [done|]. cbn.
  intros [-> ?]%andb_prop. auto.
Qed.

Lemma split_app_gap (gap s : str) : only_space gap = true -> split (gap ++ s) = split s.
Proof.
  induction gap as [|c gap IH]; [done|].
  cbn. intros [-> ?]%andb_prop. auto.
Qed.

(** A token in front, ended by whitespace or by the end, comes out first. *)
Lemma split_app_token (w rest : str) :
  w <> [] -> no_space w = true -> at_boundary rest = true ->
  split (w ++ rest) = w :: split rest.
Proof.
  unfold no_space. induction w as [|c w IH]; [done|]. intros _ Hw Hr.
  cbn [forallb] in Hw. apply andb_prop in Hw as [Hc%negb_true_iff Hw].
  cbn [app split]. rewrite Hc.
  destruct w as [|c2 w].
  - cbn [app]. destruct rest as [|c' rest]; [done|].
    cbn in Hr. by rewrite Hr.
  - rewrite IH by done. cbn [app].
    cbn [forallb] in Hw. apply andb_prop in Hw as [Hc2%negb_true_iff _].
    by rewrite Hc2.
Qed.

Lemma split_app_trail (s trail : str) :
  only_space trail = true -> split (s ++ trail) = split s.
Proof.
  intros Ht. induction s as [|c s IH].
  - by apply split_only_space.
  - cbn [app split]. destruct (isspace c); [done|].
    rewrite IH. destruct s as [|c2 s].
    + cbn [app]. destruct trail as [|c' trail]; [done|].
      cbn in Ht. apply andb_prop in Ht as [-> Ht]. reflexivity.
    + done.
Qed.

Lemma split_strip (s : str) : split (strip s) = split s.
Proof.
  unfold strip.
  destruct (lstrip_spec s) as (lead & Hs & Hl & _).
  destruct (rstrip_spec (lstrip s)) as (trail & Hr & Ht).
  rewrite Hs at 2. rewrite split_app_gap by done.
  rewrite Hr at 2. by rewrite split_app_trail.
Qed.


Lemma Tokens_space (c : char) (s : str) (l : list str) :
  isspace c = true -> Tokens s l -> Tokens (c :: s) l.
Proof.
  intros Hc [s' Hs|gap w rest l' Hg Hw Hn Hr Ht].
  - constructor. cbn. by rewrite Hc.
  - change (c :: gap ++ w ++ rest) with ((c :: gap) ++ w ++ rest).
    constructor; try done. cbn. by rewrite Hc.
Qed.

Lemma split_Tokens (s : str) : Tokens s (split s).
Proof.
  induction s as [|c s IH]; [by constructor|].
  cbn [split]. destruct (isspace c) eqn:Hc; [by apply Tokens_space|].
  assert (no_space [c] = true) as Hc1 by (cbn; by rewrite Hc).
  destruct s as [|c' s'].
  - apply (Tokens_cons [] [c] [] []); try done; by constructor.
  - destruct (isspace c') eqn:Hc'.
    + by apply (Tokens_cons [] [c] (c' :: s') _).
    + inversion IH as [s0 Hs0 E1 E2|gap w rest l' Hg Hw Hn Hr Ht E1 E2].
      * cbn in Hs0. by rewrite Hc' in Hs0.
      * destruct gap as [|g gap].
        2:{ cbn [app] in E1. injection E1 as -> _.
            cbn in Hg. by rewrite Hc' in Hg. }
        cbn [app].
        change (c :: w ++ rest) with ([] ++ (c :: w) ++ rest).
        apply Tokens_cons; try done.
        unfold no_space in *. cbn [forallb]. by rewrite Hc, Hn.
Qed.


(** *** The line of the name file *)

Lemma nombre_step_entry (m : gmap string string) (line : string) :
  nombre_step m line =
  match name_entry line with
  | Some (k, v) => <[k := v]> m
  | None => m
  end.
Proof.
  unfold nombre_step, name_entry.
  destruct (strip (chars line)) as [|c s] eqn:E; [done|].
  by destruct (split1 (c :: s)) as [|k [|v [|]]].
Qed.

(** The line a name entry comes from, cut into its five parts. *)
Lemma split1_strip_parts (s k v : str) :
  split1 (strip s) = [k; v] ->
  exists lead gap trail,
    s = lead ++ k ++ gap ++ v ++ trail /\
    only_space lead = true /\
    k <> [] /\ no_space k = true /\
    gap <> [] /\ only_space gap = true /\
    at_boundary v = false /\ rstrip v = v /\
    only_space trail = true.
Proof.
  unfold strip, split1.
  destruct (lstrip_spec s) as (lead & Hline & Hlead & Hb).
  destruct (rstrip_spec (lstrip s)) as (trail & Hs1 & Htrail).
  set (s2 := rstrip (lstrip s)) in *.
  assert (s2 = [] \/ at_boundary s2 = false) as Hb2.
  { destruct Hb as [Hb|Hb].
    - left. unfold s2. by rewrite Hb.
    - right. by apply rstrip_boundary. }
  destruct Hb2 as [Hb2|Hb2]; [by rewrite Hb2|].
  rewrite (lstrip_id s2) by done.
  destruct s2 as [|c0 s0] eqn:Es2; [done|]. rewrite <- Es2 in *.
  destruct (take_token s2) as [w r] eqn:Htok.
  destruct (take_token_spec _ _ _ Htok) as (Hs2 & Hw & Hr).
  destruct (lstrip_spec r) as (gap & Hgap & Hg & Hbn).
  destruct (lstrip r) as [|c1 r1] eqn:Er; [done|]. rewrite <- Er in *.
  intros [= <- <-].
  destruct Hbn as [Hbn|Hbn]; [by rewrite Er in Hbn|].
  assert (w <> []) as Hw0.
  { intros ->. cbn [app] in Hs2. subst r. by rewrite Hr in Hb2. }
  assert (gap <> []) as Hg0.
  { intros ->. cbn [app] in Hgap. rewrite <- Hgap in Hbn. by rewrite Hr in Hbn. }
  exists lead, gap, trail. repeat split; try done.
  - rewrite Hline at 1. rewrite Hs1 at 1. rewrite Hs2 at 1. rewrite Hgap at 1.
    by rewrite <- !app_assoc.
  - assert (rstrip s2 = s2) as Hfix by apply rstrip_idemp.
    rewrite Hs2, Hgap in Hfix. rewrite app_assoc in Hfix.
    apply rstrip_suffix in Hfix; [done|]. by rewrite Er.
Qed.

Lemma parts_split1_strip (lead k gap v trail : str) :
  only_space lead = true ->
  k <> [] -> no_space k = true ->
  gap <> [] -> only_space gap = true ->
  at_boundary v = false -> rstrip v = v ->
  only_space trail = true ->
  split1 (strip (lead ++ k ++ gap ++ v ++ trail)) = [k; v].
Proof.
  intros Hlead Hk0 Hk Hg0 Hg Hv Hfix Htrail.
  assert (v <> []) as Hv0 by (by intros ->).
  assert (at_boundary (gap ++ v) = true) as Hgv.
  { rewrite at_boundary_app by done. by apply only_space_boundary. }
  assert (at_boundary (k ++ gap ++ v) = false) as Hkb.
  { rewrite at_boundary_app by done. by apply no_space_boundary. }
  unfold strip, split1.
  rewrite lstrip_app by done.
  replace (k ++ gap ++ v ++ trail) with ((k ++ gap ++ v) ++ trail)
    by (by rewrite <- !app_assoc).
  rewrite (lstrip_id ((k ++ gap ++ v) ++ trail))
    by (rewrite at_boundary_app; [done|]; intros [? _]%app_eq_nil; done).
  rewrite rstrip_app_only_space by done.
  replace (k ++ gap ++ v) with ((k ++ gap) ++ v) by (by rewrite <- !app_assoc).
  rewrite rstrip_app by (by rewrite Hfix). rewrite Hfix, <- app_assoc.
  rewrite lstrip_id by done.
  destruct (k ++ gap ++ v) as [|c0 s0] eqn:E; [done|]. rewrite <- E.
  rewrite take_token_app by done.
  rewrite lstrip_app, lstrip_id by done.
  by destruct v.
Qed.

Lemma name_entry_NameLine (line k v : string) :
  name_entry line = Some (k, v) -> NameLine line k v.
Proof.
  unfold name_entry.
  destruct (split1 (strip (chars line))) as [|k' [|v' [|]]] eqn:E; try done.
  intros [= <- <-].
  destruct (split1_strip_parts _ _ _ E)
    as (lead & gap & trail & H1 & H2 & H3 & H4 & H5 & H6 & H7 & H8 & H9).
  by exists lead, k', gap, v', trail.
Qed.

Lemma NameLine_name_entry (line k v : string) :
  NameLine line k v -> name_entry line = Some (k, v).
Proof.
  intros (lead & k' & gap & v' & trail & E & -> & -> &
          H2 & H3 & H4 & H5 & H6 & H7 & H8 & H9).
  unfold name_entry. rewrite E. by rewrite parts_split1_strip.
Qed.

Lemma name_entry_iff (line k v : string) :
  name_entry line = Some (k, v) <-> NameLine line k v.
Proof. split; [apply name_entry_NameLine|apply NameLine_name_entry]. Qed.

(** The key of a name line is the first token of the line. *)
Lemma NameLine_first_token (line k v : string) :
  NameLine line k v -> first_token line = Some k.
Proof.
  intros (lead & k' & gap & v' & trail & E & -> & -> &
          Hlead & Hk0 & Hk & Hg0 & Hg & Hv & Hfix & Htrail).
  unfold first_token. rewrite E, split_app_gap by done.
  rewrite split_app_token; [done..|].
  rewrite at_boundary_app by done. by apply only_space_boundary.
Qed.

(** *** Dots *)

Lemma split_on_length (sep : ascii) (s : string) :
  length (split_on sep s) = S (count sep s).
Proof.
  induction s as [|c s IH]; [done|]. cbn [split_on count].
  destruct (Ascii.eqb c sep); cbn; [by rewrite IH|].
  destruct (split_on sep s); cbn in *; lia.
Qed.

Lemma split_on_no_sep (sep : ascii) (s : string) :
  count sep s = 0%nat -> split_on sep s = [s].
Proof.
  induction s as [|c s IH]; [done|]. cbn [split_on count].
  destruct (Ascii.eqb c sep); [done|]. intros Hc. by rewrite IH.
Qed.

(** With one separator the two pieces are what is before and after it. *)
Lemma split_on_two (sep : ascii) (s a b : string) :
  split_on sep s = [a; b] -> s = a +:+ String sep b.
Proof.
  revert a. induction s as [|c s IH]; intros a; [done|]. cbn [split_on].
  destruct (Ascii.eqb_spec c sep) as [->|Hne].
  - intros [= <- Hs]. rewrite str_app_nil_l. f_equal.
    pose proof (split_on_length sep s) as Hlen. rewrite Hs in Hlen.
    rewrite split_on_no_sep in Hs by (cbn in Hlen; lia). by injection Hs.
  - destruct (split_on sep s) as [|w [|w' [|]]] eqn:E; try done.
    intros [= <- <-]. rewrite str_app_cons. f_equal. by apply IH.
Qed.

Lemma station_code_one_dot (full_sta : string) :
  count "." full_sta = 1%nat ->
  exists a b, full_sta = a +:+ "." +:+ b /\ count "." a = 0%nat /\
              count "." b = 0%nat /\ station_code full_sta = b.
Proof.
  intros Hc. pose proof (split_on_length "." full_sta) as Hlen.
  rewrite Hc in Hlen. unfold station_code.
  destruct (split_on "." full_sta) as [|a [|b [|]]] eqn:E; try done.
  exists a, b. pose proof (split_on_two _ _ _ _ E) as Hs.
  change (a +:+ "." +:+ b) with (a +:+ String "." b).
  split; [done|]. rewrite Hs, count_app in Hc. cbn in Hc.
  repeat split; lia.
Qed.

Lemma station_code_other (full_sta : string) :
  count "." full_sta <> 1%nat -> station_code full_sta = full_sta.
Proof.
  intros Hc. pose proof (split_on_length "." full_sta) as Hlen.
  unfold station_code.
  destruct (split_on "." full_sta) as [|a [|b [|]]] eqn:E; try done.
  cbn in Hlen. lia.
Qed.

End SplitFacts.

(** ** Binary64 comparisons *)

Section FloatFacts.

Lemma SFcompare_nan_l (x y : spec_float) : sf_nan x = true -> SFcompare x y = None.
Proof. by destruct x, y. Qed.

Lemma SFcompare_nan_r (x y : spec_float) : sf_nan y = true -> SFcompare x y = None.
Proof. by destruct x, y. Qed.

Lemma SFcompare_some (x y : spec_float) :
  sf_nan x = false -> sf_nan y = false -> exists c, SFcompare x y = Some c.
Proof. destruct x, y; cbn; try done; eauto. Qed.

Local Ltac sf_order :=
  repeat match goal with
         | s : bool |- _ => destruct s
         end;
  cbn; try done;
  repeat match goal with
         | |- context [(?a ?= ?b)%Z] => destruct (Z.compare_spec a b)
         | |- context [PosDef.Pos.compare_cont Eq ?a ?b] =>
             change (PosDef.Pos.compare_cont Eq a b) with (a ?= b)%positive;
             destruct (Pos.compare_spec a b)
         end;
  cbn; try done; try (exfalso; lia).

Lemma SFcompare_antisym (x y : spec_float) :
  SFcompare y x = option_map CompOpp (SFcompare x y).
Proof. destruct x, y; sf_order. Qed.

Lemma SFcompare_refl (x : spec_float) : sf_nan x = false -> SFcompare x x = Some Eq.
Proof. destruct x; intros Hx; sf_order. Qed.

(** [SFcompare] is transitive, with [Eq] neutral. *)
Lemma SFcompare_trans (x y z : spec_float) (c1 c2 c : comparison) :
  SFcompare x y = Some c1 -> SFcompare y z = Some c2 -> comp_join c1 c2 = Some c ->
  SFcompare x z = Some c.
Proof.
  destruct x as [sx|sx| |sx mx ex], y as [sy|sy| |sy my ey], z as [sz|sz| |sz mz ez];
    try done; sf_order.
  all: intros [= <-] [= <-]; cbn; intros [= <-]; try done; exfalso; lia.
Qed.

(** *** The same on [float] *)

Lemma is_nan_spec (x : float) : PrimFloat.is_nan x = sf_nan (Prim2SF x).
Proof.
  unfold PrimFloat.is_nan. rewrite FloatAxioms.eqb_spec. unfold SFeqb.
  destruct (sf_nan (Prim2SF x)) eqn:Hx.
  - by rewrite SFcompare_nan_l.
  - by rewrite SFcompare_refl.
Qed.

Lemma nan_unique (x : float) : PrimFloat.is_nan x = true -> x = nan.
Proof.
  rewrite is_nan_spec. intros Hx. apply Prim2SF_inj.
  by destruct (Prim2SF x).
Qed.

Lemma ltb_not_nan (x y : float) :
  PrimFloat.ltb x y = true -> PrimFloat.is_nan x = false /\ PrimFloat.is_nan y = false.
Proof.
  rewrite FloatAxioms.ltb_spec, !is_nan_spec. unfold SFltb.
  by destruct (Prim2SF x), (Prim2SF y).
Qed.

Lemma leb_not_nan (x y : float) :
  PrimFloat.leb x y = true -> PrimFloat.is_nan x = false /\ PrimFloat.is_nan y = false.
Proof.
  rewrite FloatAxioms.leb_spec, !is_nan_spec. unfold SFleb.
  by destruct (Prim2SF x), (Prim2SF y).
Qed.

Lemma ltb_asym (x y : float) : PrimFloat.ltb x y = true -> PrimFloat.ltb y x = false.
Proof.
  rewrite !FloatAxioms.ltb_spec. unfold SFltb. rewrite (SFcompare_antisym (Prim2SF x) (Prim2SF y)).
  by destruct (SFcompare (Prim2SF x) (Prim2SF y)) as [[]|].
Qed.

Lemma leb_not_ltb (x y : float) : PrimFloat.leb x y = true -> PrimFloat.ltb y x = false.
Proof.
  rewrite FloatAxioms.ltb_spec, FloatAxioms.leb_spec. unfold SFltb, SFleb. rewrite (SFcompare_antisym (Prim2SF x) (Prim2SF y)).
  by destruct (SFcompare (Prim2SF x) (Prim2SF y)) as [[]|].
Qed.

Lemma ltb_leb (x y : float) : PrimFloat.ltb x y = true -> PrimFloat.leb x y = true.
Proof.
  rewrite FloatAxioms.ltb_spec, FloatAxioms.leb_spec. unfold SFltb, SFleb.
  by destruct (SFcompare (Prim2SF x) (Prim2SF y)) as [[]|].
Qed.

(** Two values that are not NaN compare one way or the other. *)
Lemma ltb_or_leb (x y : float) :
  PrimFloat.is_nan x = false -> PrimFloat.is_nan y = false ->
  PrimFloat.ltb x y = true \/ PrimFloat.leb y x = true.
Proof.
  rewrite !is_nan_spec, FloatAxioms.ltb_spec, FloatAxioms.leb_spec. unfold SFltb, SFleb. intros Hx Hy.
  rewrite (SFcompare_antisym (Prim2SF x) (Prim2SF y)).
  destruct (SFcompare_some _ _ Hx Hy) as [[] ->]; cbn; auto.
Qed.

Lemma leb_refl (x : float) : PrimFloat.is_nan x = false -> PrimFloat.leb x x = true.
Proof.
  rewrite is_nan_spec, FloatAxioms.leb_spec. unfold SFleb. intros Hx. by rewrite SFcompare_refl.
Qed.

Lemma leb_trans (x y z : float) :
  PrimFloat.leb x y = true -> PrimFloat.leb y z = true -> PrimFloat.leb x z = true.
Proof.
  rewrite !FloatAxioms.leb_spec. unfold SFleb.
  destruct (SFcompare (Prim2SF x) (Prim2SF y)) as [c1|] eqn:H1; [|done].
  destruct (SFcompare (Prim2SF y) (Prim2SF z)) as [c2|] eqn:H2; [|by destruct c1].
  destruct c1, c2; try done; intros _ _.
  all: by erewrite SFcompare_trans by (try eassumption; reflexivity).
Qed.

Lemma is_nan_abs (x : float) : PrimFloat.is_nan (PrimFloat.abs x) = PrimFloat.is_nan x.
Proof. rewrite !is_nan_spec, FloatAxioms.abs_spec. by destruct (Prim2SF x). Qed.

(** Nothing that is not NaN is above [infinity], and only [infinity] is at
    its level. *)
Lemma leb_infinity (x : float) : PrimFloat.leb infinity x = true -> x = infinity.
Proof.
  rewrite FloatAxioms.leb_spec. intros H. apply Prim2SF_inj.
  change (Prim2SF infinity) with (S754_infinity false) in *.
  unfold SFleb in H. by destruct (Prim2SF x) as [[]|[]| |[] ? ?].
Qed.

Lemma is_infinity_abs (x : float) :
  PrimFloat.is_infinity x = true -> PrimFloat.abs x = infinity.
Proof.
  unfold PrimFloat.is_infinity. rewrite FloatAxioms.eqb_spec. intros H. apply Prim2SF_inj.
  change (Prim2SF infinity) with (S754_infinity false) in *.
  unfold SFeqb in H. by destruct (Prim2SF (PrimFloat.abs x)) as [[]|[]| |[] ? ?].
Qed.

(** A finite value is a zero or has a mantissa and an exponent. *)
Lemma is_finite_spec (x : float) :
  PrimFloat.is_finite x = true ->
  match Prim2SF x with
  | S754_zero _ | S754_finite _ _ _ => True
  | _ => False
  end.
Proof.
  unfold PrimFloat.is_finite, PrimFloat.is_infinity.
  rewrite is_nan_spec, FloatAxioms.eqb_spec, FloatAxioms.abs_spec.
  change (Prim2SF infinity) with (S754_infinity false).
  by destruct (Prim2SF x) as [[]|[]| |[] ? ?].
Qed.

End FloatFacts.

(** ** Numbers, formatting and arrays *)

Section NumberFacts.

Lemma Z2float_0 : Z2float 0 = 0%float.
Proof. reflexivity. Qed.

Lemma Z2float_3 : Z2float 3 = 3%float.
Proof. reflexivity. Qed.

Lemma Z2float_60 : Z2float 60 = 60%float.
Proof. reflexivity. Qed.

(** [max(0, d)] is [d] when [d] is positive and the integer [0] otherwise,
    also for a NaN and for a negative zero. *)
Lemma py_max_0 (d : float) :
  py_max (PyInt 0) (PyFloat d) = if PrimFloat.ltb 0 d then PyFloat d else PyInt 0.
Proof. reflexivity. Qed.

Lemma py_lt_float_60 (d : float) : py_lt (PyFloat d) (PyInt 60) = PrimFloat.ltb d 60.
Proof. reflexivity. Qed.

Lemma py_truediv_60 (x : pynum) :
  py_truediv x (PyInt 60) = Ok (PyFloat (to_float x / 60)).
Proof. reflexivity. Qed.

Lemma digits_fixed_length (d : nat) (n : Z) : String.length (digits_fixed d n) = d.
Proof.
  revert n. induction d as [|d IH]; intros n; [done|].
  cbn [digits_fixed]. rewrite str_length_app, IH. cbn. lia.
Qed.

(** A finite value formatted with [d > 0] decimals is an optional sign,
    an integer part, a point and exactly [d] characters. *)
Lemma format_float_f_decimals (d : nat) (x : float) :
  d <> O -> PrimFloat.is_finite x = true ->
  exists sgn ip fr,
    format_float_f d x = sgn +:+ ip +:+ "." +:+ fr /\
    (sgn = "" \/ sgn = "-") /\ String.length fr = d.
Proof.
  intros Hd Hx. apply is_finite_spec in Hx. unfold format_float_f, fixed_point.
  destruct (Prim2SF x) as [s|s| |s m e]; try done.
  all: destruct d as [|d']; [done|].
  all: eexists (sign_str s), _, _; split; [reflexivity|].
  all: split; [destruct s; auto|apply digits_fixed_length].
Qed.

(** *** [a[mask]] *)

Lemma bool_index_ok {A} (a : list A) (mask : list bool) (r : list A) :
  bool_index a mask = Ok r -> length a = length mask.
Proof.
  revert mask r. induction a as [|x a IH]; intros [|b mask] r; try done.
  cbn. destruct (bool_index a mask) as [r'|] eqn:E; [|done].
  intros _. f_equal. by eapply IH.
Qed.

Lemma bool_index_filter {A} (p : A -> bool) (a : list A) :
  bool_index a (List.map p a) = Ok (List.filter p a).
Proof.
  induction a as [|x a IH]; [done|]. cbn. rewrite IH. cbn. by destruct (p x).
Qed.

(** Indexing the times and the samples with the mask of the samples keeps
    the pairs whose sample passes. *)
Lemma bool_index_pairs {A B} (p : B -> bool) (t : list A) (d : list B) (x : list A) :
  bool_index t (List.map p d) = Ok x ->
  combine x (List.filter p d) = List.filter (fun tv => p (snd tv)) (combine t d).
Proof.
  revert d x. induction t as [|t0 t IH]; intros [|d0 d] x; try done.
  - by intros [= <-].
  - cbn. destruct (bool_index t (List.map p d)) as [r|] eqn:E; [|done].
    cbn. intros [= <-]. destruct (p d0); cbn; by rewrite (IH _ _ E).
Qed.

(** *** [a.max()] *)

Lemma np_maximum_nan_l (a b : float) : PrimFloat.is_nan a = true -> np_maximum a b = a.
Proof. unfold np_maximum. intros ->. by rewrite orb_true_r. Qed.

Lemma np_maximum_nan_r (a b : float) :
  PrimFloat.is_nan a = false -> PrimFloat.is_nan b = true -> np_maximum a b = b.
Proof.
  unfold np_maximum. intros -> Hb.
  destruct (PrimFloat.leb b a) eqn:E; [|done].
  apply leb_not_nan in E as [E _]. congruence.
Qed.

Lemma fold_maximum_nan (l : list float) (a : float) :
  PrimFloat.is_nan a = true -> fold_left np_maximum l a = a.
Proof.
  revert a. induction l as [|b l IH]; intros a Ha; [done|].
  cbn. rewrite np_maximum_nan_l by done. by apply IH.
Qed.

Lemma fold_maximum_has_nan (l : list float) (a : float) :
  Exists (fun x => PrimFloat.is_nan x = true) (a :: l) ->
  fold_left np_maximum l a = nan.
Proof.
  revert a. induction l as [|b l IH]; intros a Hex.
  - apply Exists_cons in Hex as [Ha|Hex]; [by apply nan_unique|].
    by apply Exists_nil in Hex.
  - cbn. destruct (PrimFloat.is_nan a) eqn:Ha.
    + rewrite np_maximum_nan_l by done. rewrite fold_maximum_nan by done.
      by apply nan_unique.
    + apply Exists_cons in Hex as [Hex|Hex]; [congruence|].
      apply IH. apply Exists_cons in Hex as [Hb|Hex].
      * left. by rewrite np_maximum_nan_r.
      * by right.
Qed.

(** A NaN anywhere makes the maximum NaN. *)
Lemma np_max_nan (l : list float) :
  Exists (fun x => PrimFloat.is_nan x = true) l -> np_max l = Ok nan.
Proof.
  destruct l as [|a l]; [by intros ?%Exists_nil|].
  intros H. cbn. by rewrite fold_maximum_has_nan.
Qed.

Lemma np_maximum_cases (a b : float) :
  PrimFloat.is_nan a = false -> PrimFloat.is_nan b = false ->
  (np_maximum a b = a /\ PrimFloat.leb b a = true) \/
  (np_maximum a b = b /\ PrimFloat.leb a b = true).
Proof.
  intros Ha Hb. unfold np_maximum. rewrite Ha, orb_false_r.
  destruct (PrimFloat.leb b a) eqn:E; [by left|right].
  split; [done|]. destruct (ltb_or_leb a b Ha Hb) as [H|H]; [|congruence].
  by apply ltb_leb.
Qed.

Lemma fold_maximum_spec (l : list float) (a : float) :
  Forall (fun x => PrimFloat.is_nan x = false) (a :: l) ->
  let p := fold_left np_maximum l a in
  In p (a :: l) /\ PrimFloat.is_nan p = false /\
  Forall (fun x => PrimFloat.leb x p = true) (a :: l).
Proof.
  revert a. induction l as [|b l IH]; intros a Hall.
  - apply Forall_cons in Hall as [Ha _]. cbn. repeat split; [by left|done|].
    constructor; [by apply leb_refl|constructor].
  - apply Forall_cons in Hall as [Ha Hall].
    pose proof Hall as [Hb Hl]%Forall_cons.
    cbn [fold_left].
    destruct (np_maximum_cases a b Ha Hb) as [[-> Hle]|[-> Hle]].
    + destruct (IH a) as (Hin & Hnan & Hfor); [by constructor|].
      apply Forall_cons in Hfor as [Hap Hfor]. cbn zeta.
      repeat split; [|done|].
      * destruct Hin as [<-|Hin]; [by left|by right; right].
      * constructor; [done|]. constructor; [|done]. by eapply leb_trans.
    + destruct (IH b Hall) as (Hin & Hnan & Hfor).
      apply Forall_cons in Hfor as [Hbp Hfor]. cbn zeta.
      repeat split; [by right|done|].
      constructor; [by eapply leb_trans|]. by constructor.
Qed.

(** Without NaN the result is an element that no element exceeds. *)
Lemma np_max_spec (l : list float) :
  l <> [] -> Forall (fun x => PrimFloat.is_nan x = false) l ->
  exists p, np_max l = Ok p /\ In p l /\ PrimFloat.is_nan p = false /\
            Forall (fun x => PrimFloat.leb x p = true) l.
Proof.
  destruct l as [|a l]; [done|]. intros _ Hall.
  exists (fold_left np_maximum l a). split; [done|].
  by apply fold_maximum_spec.
Qed.

Lemma np_abs_no_nan (l : list float) :
  Forall (fun x => PrimFloat.is_nan x = false) l ->
  Forall (fun x => PrimFloat.is_nan x = false) (np_abs l).
Proof.
  unfold np_abs. intros H. apply Forall_map. eapply Forall_impl; [done|].
  cbn. intros x Hx. by rewrite is_nan_abs.
Qed.

End NumberFacts.

(** ** The two loaders *)

Section LoaderFacts.

Lemma estacion_step_descriptor (estaciones : list estacion) (line : string) :
  estacion_step estaciones line =
  match descriptor line with
  | Some d => estaciones ++ [d]
  | None => estaciones
  end.
Proof.
  unfold estacion_step, descriptor. rewrite split_strip.
  by destruct (PyStr.split (PyStr.chars line)) as [|net [|full_sta ?]].
Qed.

Lemma fold_estacion_step (f : list string) (estaciones : list estacion) :
  fold_left estacion_step f estaciones = estaciones ++ omap descriptor f.
Proof.
  revert estaciones. induction f as [|line f IH]; intros estaciones.
  - by rewrite app_nil_r.
  - cbn [fold_left]. rewrite IH, estacion_step_descriptor. cbn [omap list_omap].
    destruct (descriptor line); [|done]. by rewrite <- app_assoc.
Qed.

(** The list is the descriptors of the lines that have one, in file
    order. *)
Lemma leer_estaciones_omap (f : list string) : leer_estaciones f = omap descriptor f.
Proof. apply fold_estacion_step. Qed.


(** A key that no line sets keeps the value it had. *)
Lemma fold_nombre_step_other (f : list string) (m : gmap string string) (k : string) :
  (forall line v, In line f -> name_entry line <> Some (k, v)) ->
  fold_left nombre_step f m !! k = m !! k.
Proof.
  revert m. induction f as [|line f IH]; intros m Hf; [done|].
  cbn [fold_left]. rewrite IH by (intros l v Hl; apply Hf; by right).
  rewrite nombre_step_entry.
  destruct (name_entry line) as [[k' v']|] eqn:E; [|done].
  apply lookup_insert_ne. intros ->. by eapply Hf; [left|].
Qed.

Lemma fold_nombre_step_app (pre post : list string) (m : gmap string string) :
  fold_left nombre_step (pre ++ post) m = fold_left nombre_step post (fold_left nombre_step pre m).
Proof. apply fold_left_app. Qed.

(** The last line that sets a key decides its value. *)
Lemma leer_nombres_last (pre post : list string) (line k v : string) :
  name_entry line = Some (k, v) ->
  (forall l v', In l post -> name_entry l <> Some (k, v')) ->
  leer_nombres (pre ++ line :: post) !! k = Some v.
Proof.
  intros Hline Hpost. unfold leer_nombres.
  rewrite fold_nombre_step_app. cbn [fold_left].
  rewrite fold_nombre_step_other by done.
  rewrite nombre_step_entry, Hline. apply lookup_insert_eq.
Qed.

Lemma leer_nombres_absent (f : list string) (k : string) :
  (forall l v, In l f -> name_entry l <> Some (k, v)) ->
  leer_nombres f !! k = None.
Proof. intros H. unfold leer_nombres. by rewrite fold_nombre_step_other. Qed.

End LoaderFacts.

(** ** The loop and the run *)

Section LoopFacts.

Context (L : ObsPy) (client_fdsn : client L).
Context (ahora t_inicio t_fin : UTCDateTime).
Context (estacion_nombres : gmap string string).

Local Abbreviation panel' := (panel L client_fdsn ahora t_inicio t_fin estacion_nombres).
Local Abbreviation graficar' := (graficar L client_fdsn ahora t_inicio t_fin estacion_nombres).

(** With the axes that [plt.subplots] has made for them, every station
    gets its panel and the index never leaves the list. *)
Lemma graficar_from (estaciones : list estacion) (done_ : list Axes) :
  graficar' (length done_) estaciones
    (done_ ++ replicate (length estaciones) new_axes) =
  Ok (done_ ++ imap (fun j e => panel' (length done_ + j) e new_axes) estaciones).
Proof.
  revert done_. induction estaciones as [|e rest IH]; intros done_; [done|].
  cbn [graficar length replicate]. unfold graficar_estacion, ax_getitem.
  rewrite lookup_app_r by lia. rewrite Nat.sub_diag. cbn [lookup list_lookup mbind result_bind].
  rewrite insert_app_r_alt by lia. rewrite Nat.sub_diag. cbn [insert list_insert].
  specialize (IH (done_ ++ [panel' (length done_) e new_axes])).
  rewrite length_app in IH. cbn [length] in IH.
  replace (length done_ + 1)%nat with (S (length done_)) in IH by lia.
  rewrite <- app_assoc in IH. cbn [app] in IH. rewrite IH.
  rewrite <- app_assoc. cbn [app imap]. rewrite Nat.add_0_r.
  do 3 f_equal. apply imap_ext. intros j x _. cbn. f_equal. lia.
Qed.

Lemma graficar_all (estaciones : list estacion) :
  graficar' 0 estaciones (replicate (length estaciones) new_axes) =
  Ok (imap (fun j e => panel' j e new_axes) estaciones).
Proof. apply (graficar_from estaciones []). Qed.

End LoopFacts.

(** ** The [try] block, step by step *)

Section TryFacts.

Context (L : ObsPy) (client_fdsn : client L).
Context (ahora t_inicio t_fin : UTCDateTime).
Context (estacion_nombres : gmap string string).

Local Abbreviation panel' := (panel L client_fdsn ahora t_inicio t_fin estacion_nombres).
Local Abbreviation intentar' := (intentar L client_fdsn ahora t_inicio t_fin).
Local Abbreviation obtener_traza' := (obtener_traza L client_fdsn t_inicio t_fin).

Lemma bind_ok {A B} (m : result A) (k : A -> result B) (b : B) :
  (x ← m; k x) = Ok b -> exists a, m = Ok a /\ k a = Ok b.
Proof. destruct m as [a|e]; [eauto|done]. Qed.

Lemma obtener_traza_ok (i : nat) (net sta loc cha : string) (tr : Trace) :
  obtener_traza' i net sta loc cha = Ok tr <->
  exists st0 st1 st2 st3 st4,
    get_waveforms L client_fdsn i
      {| network := net; station := sta; location := loc; channel := cha;
         starttime := t_inicio; endtime := t_fin; attach_response := true |} = Ok st0 /\
    remove_response L "ACC" true true st0 = Ok st1 /\
    stream_filter L (highpass 0.1 4 true) st1 = Ok st2 /\
    stream_filter L (lowpass 10.0 4 true) st2 = Ok st3 /\
    stream_filter L (bandstop (PyInt 49) (PyInt 51) 2 true) st3 = Ok st4 /\
    st4 !! 0%nat = Some tr.
Proof.
  unfold obtener_traza. split.
  - intros (st0 & H0 & (st1 & H1 & (st2 & H2 & (st3 & H3 & (st4 & H4 & H5)%bind_ok
      )%bind_ok)%bind_ok)%bind_ok)%bind_ok.
    exists st0, st1, st2, st3, st4. repeat split; try done.
    unfold stream_getitem in H5. by destruct (st4 !! 0%nat); simplify_eq.
  - intros (st0 & st1 & st2 & st3 & st4 & -> & H1 & H2 & H3 & H4 & H5). cbn.
    rewrite H1. cbn. rewrite H2. cbn. rewrite H3. cbn. rewrite H4. cbn.
    unfold stream_getitem. by rewrite H5.
Qed.

Lemma trazar_ok (sta : string) (tr : Trace) (a : Axes) (ll ls : string) (a' : Axes) :
  trazar L ahora sta tr a = Ok (ll, ls, a') ->
  exists p x,
    lat_str (lat_sec L ahora tr) = Ok ls /\
    peak tr = Ok p /\
    ll = "[" +:+ format_float_f 2 p +:+ " cm/s²] " +:+ sta /\
    bool_index (tr_times_matplotlib tr) (np_isfinite (data_cm_s2 tr)) = Ok x /\
    a' = ax_plot x (List.filter PrimFloat.is_finite (data_cm_s2 tr)) "b-" a.
Proof.
  unfold trazar.
  intros (ls' & Hls & (p & Hp & (x & Hx & (y & Hy & [= <- <- <-])%bind_ok
    )%bind_ok)%bind_ok)%bind_ok.
  exists p, x. repeat split; try done.
  unfold np_isfinite in Hy. rewrite bool_index_filter in Hy. by injection Hy as <-.
Qed.

Lemma intentar_ok (i : nat) (net sta loc cha : string) (a : Axes)
    (ll ls : string) (a' : Axes) :
  intentar' i net sta loc cha a = Ok (ll, ls, a') ->
  exists tr, obtener_traza' i net sta loc cha = Ok tr /\
             trazar L ahora sta tr a = Ok (ll, ls, a').
Proof. unfold intentar. apply bind_ok. Qed.

(** Whether the block raises does not depend on the axes it is given. *)
Lemma intentar_axes (i : nat) (net sta loc cha : string) (a b : Axes) :
  is_ok (intentar' i net sta loc cha a) = is_ok (intentar' i net sta loc cha b).
Proof.
  unfold intentar, trazar.
  destruct (obtener_traza' i net sta loc cha) as [tr|]; [cbn|done].
  destruct (lat_str (lat_sec L ahora tr)); [cbn|done].
  destruct (peak tr); [cbn|done].
  destruct (bool_index (tr_times_matplotlib tr) _); [cbn|done].
  by destruct (bool_index (data_cm_s2 tr) _).
Qed.

(** The latency string is never empty, so a panel with data always has its
    third text. *)
Lemma lat_str_not_empty (lat : pynum) (ls : string) : lat_str lat = Ok ls -> ls <> "".
Proof.
  unfold lat_str. destruct (py_lt lat (PyInt 60)).
  - by intros [= <-].
  - rewrite py_truediv_60. by intros [= <-].
Qed.

(** The panel of a station whose block raises. *)
Lemma panel_raise (i : nat) (net full_sta loc cha : string) (a : Axes) (exc : exn) :
  let sta := station_code full_sta in
  intentar' i net sta loc cha a = Raise exc ->
  panel' i (net, full_sta, loc, cha) a =
  ax_frame_off (matplotlib_date L t_inicio) (matplotlib_date L t_fin)
    (ax_text 1.02 1.1 (nombre_de estacion_nombres sta +:+ " (sin datos)") "left" "top" 8
       (ax_text (-0.02) 1.0 ("[Sin datos] " +:+ sta) "right" "top" 8
          (ax_plot [matplotlib_date L t_inicio; matplotlib_date L t_fin]
             [0%float; 0%float] "r-" a))).
Proof. intros sta H. unfold panel. fold sta. by rewrite H. Qed.

(** The panel of a station whose block succeeds. *)
Lemma panel_ok (i : nat) (net full_sta loc cha : string) (a : Axes)
    (ll ls : string) (a' : Axes) :
  let sta := station_code full_sta in
  intentar' i net sta loc cha a = Ok (ll, ls, a') ->
  panel' i (net, full_sta, loc, cha) a =
  ax_frame_off (matplotlib_date L t_inicio) (matplotlib_date L t_fin)
    (ax_text 1.02 0.35 ls "left" "top" 5
       (ax_text 1.02 1.1 (nombre_de estacion_nombres sta) "left" "top" 8
          (ax_text (-0.02) 1.0 ll "right" "top" 8 a'))).
Proof.
  intros sta H. unfold panel. fold sta. rewrite H.
  destruct (intentar_ok _ _ _ _ _ _ _ _ _ H) as (tr & _ & Htr).
  destruct (trazar_ok _ _ _ _ _ _ Htr) as (p & x & Hls%lat_str_not_empty & _).
  by destruct ls.
Qed.

(** The texts of a panel drawn on fresh axes. *)
Lemma panel_texts_ok (i : nat) (net full_sta loc cha : string) (ll ls : string) (a' : Axes) :
  let sta := station_code full_sta in
  intentar' i net sta loc cha new_axes = Ok (ll, ls, a') ->
  panel_texts (panel' i (net, full_sta, loc, cha) new_axes) =
  [ll; nombre_de estacion_nombres sta; ls].
Proof.
  intros sta H. rewrite (panel_ok _ _ _ _ _ _ _ _ _ H).
  destruct (intentar_ok _ _ _ _ _ _ _ _ _ H) as (tr & _ & Htr).
  destruct (trazar_ok _ _ _ _ _ _ Htr) as (p & x & _ & _ & _ & _ & ->).
  reflexivity.
Qed.

Lemma panel_texts_raise (i : nat) (net full_sta loc cha : string) (exc : exn) :
  let sta := station_code full_sta in
  intentar' i net sta loc cha new_axes = Raise exc ->
  panel_texts (panel' i (net, full_sta, loc, cha) new_axes) =
  ["[Sin datos] " +:+ sta; nombre_de estacion_nombres sta +:+ " (sin datos)"].
Proof. intros sta H. by rewrite (panel_raise _ _ _ _ _ _ _ H). Qed.

(** Every panel ends with the time window as its x range. *)
Lemma panel_xlim (i : nat) (e : estacion) (a : Axes) :
  ax_xlim (panel' i e a) = Some (matplotlib_date L t_inicio, matplotlib_date L t_fin).
Proof.
  destruct e as [[[net full_sta] loc] cha]. unfold panel.
  destruct (intentar' i net (station_code full_sta) loc cha a) as [[[ll ls] a']|exc].
  - by destruct ls.
  - reflexivity.
Qed.

End TryFacts.

(** ** The run *)

Section ProcesoFacts.

Context (L : ObsPy) (env : Entorno) (argv : list string).

Lemma proceso_no_client (e : exn) :
  Client L FDSN_SERVER_URL = Raise e -> proceso L env argv = uncaught e.
Proof. intros H. unfold proceso. by rewrite H. Qed.

Lemma proceso_no_nombres (cl : client L) (e : exn) :
  Client L FDSN_SERVER_URL = Ok cl ->
  leer_archivo env ARCHIVO_ESTACIONES_NOMBRE = Raise e ->
  proceso L env argv = uncaught e.
Proof. intros H1 H2. unfold proceso. by rewrite H1, H2. Qed.

Lemma proceso_no_codigos (cl : client L) (fn : list string) (e : exn) :
  Client L FDSN_SERVER_URL = Ok cl ->
  leer_archivo env ARCHIVO_ESTACIONES_NOMBRE = Ok fn ->
  leer_archivo env (ARCHIVO_ESTACIONES_CODIGO argv) = Raise e ->
  proceso L env argv = uncaught e.
Proof. intros H1 H2 H3. unfold proceso. by rewrite H1, H2, H3. Qed.

Lemma proceso_sin_estaciones (cl : client L) (fn fc : list string) :
  Client L FDSN_SERVER_URL = Ok cl ->
  leer_archivo env ARCHIVO_ESTACIONES_NOMBRE = Ok fn ->
  leer_archivo env (ARCHIVO_ESTACIONES_CODIGO argv) = Ok fc ->
  leer_estaciones fc = [] ->
  proceso L env argv = salir_sin_estaciones env.
Proof. intros H1 H2 H3 H4. unfold proceso. by rewrite H1, H2, H3, H4. Qed.

(** With a client, the two files and a station, the run draws the figure
    and goes on to save it. *)
Lemma proceso_draws (cl : client L) (fn fc : list string) :
  Client L FDSN_SERVER_URL = Ok cl ->
  leer_archivo env ARCHIVO_ESTACIONES_NOMBRE = Ok fn ->
  leer_archivo env (ARCHIVO_ESTACIONES_CODIGO argv) = Ok fc ->
  leer_estaciones fc <> [] ->
  proceso L env argv = guardar env (figura L cl fn fc).
Proof.
  intros H1 H2 H3 H4. unfold proceso. rewrite H1, H2, H3.
  destruct (leer_estaciones fc) as [|e rest] eqn:E; [done|].
  unfold plt_subplots. cbn [fig_axes fig_sharex].
  rewrite graficar_all. unfold eje_x.
  unfold figura. rewrite E. rewrite length_imap.
  by destruct (imap _ (e :: rest)) eqn:Ei.
Qed.


End ProcesoFacts.

Lemma leer_archivo_entorno_de (fs : gmap string (list string)) (path : string) :
  leer_archivo (entorno_de fs) path =
  match fs !! path with
  | Some f => Ok f
  | None => Raise (Exception "FileNotFoundError")
  end.
Proof.
  unfold leer_archivo, entorno_de. cbn [archivos]. rewrite lookup_fmap.
  by destruct (fs !! path).
Qed.

(** [main], case by case. *)
Lemma main_unfold (L : ObsPy) (argv : list string) (fs : gmap string (list string)) :
  main L argv fs =
  match Client L FDSN_SERVER_URL with
  | Raise e => uncaught e
  | Ok cl =>
      match fs !! ARCHIVO_ESTACIONES_NOMBRE with
      | None => uncaught (Exception "FileNotFoundError")
      | Some fn =>
          match fs !! ARCHIVO_ESTACIONES_CODIGO argv with
          | None => uncaught (Exception "FileNotFoundError")
          | Some fc =>
              match leer_estaciones fc with
              | [] => {| exit_code := 1; stdout := ["No hay estaciones definidas."];
                         traceback := None; saved := None |}
              | _ => {| exit_code := 0; stdout := [anuncio]; traceback := None;
                        saved := Some (OUTPUT_FILENAME, figura L cl fn fc) |}
              end
          end
      end
  end.
Proof.
  unfold main.
  destruct (Client L FDSN_SERVER_URL) as [cl|e] eqn:Hcl;
    [|by apply proceso_no_client].
  destruct (fs !! ARCHIVO_ESTACIONES_NOMBRE) as [fn|] eqn:Hfn.
  2:{ apply (proceso_no_nombres _ _ _ cl); [done|].
      by rewrite leer_archivo_entorno_de, Hfn. }
  destruct (fs !! ARCHIVO_ESTACIONES_CODIGO argv) as [fc|] eqn:Hfc.
  2:{ apply (proceso_no_codigos _ _ _ cl fn); [done|..];
        by rewrite leer_archivo_entorno_de, ?Hfn, ?Hfc. }
  destruct (leer_estaciones fc) as [|e rest] eqn:E.
  - rewrite (proceso_sin_estaciones _ _ _ cl fn fc);
      [done|done|by rewrite leer_archivo_entorno_de, ?Hfn, ?Hfc..|done].
  - rewrite (proceso_draws _ _ _ cl fn fc);
      [done|done|by rewrite leer_archivo_entorno_de, ?Hfn, ?Hfc..|by rewrite E].
Qed.

Section RunFacts.

Context (L : ObsPy) (argv : list string) (fs : gmap string (list string)).
Context (cl : client L) (fn fc : list string).
Hypothesis client_ok : Client L FDSN_SERVER_URL = Ok cl.
Hypothesis nombres_ok : fs !! ARCHIVO_ESTACIONES_NOMBRE = Some fn.
Hypothesis codigos_ok : fs !! ARCHIVO_ESTACIONES_CODIGO argv = Some fc.
Hypothesis not_empty : leer_estaciones fc <> [].

Local Abbreviation ahora := (UTCDateTime_now L).
Local Abbreviation t_inicio := (utc_minus_seconds (UTCDateTime_now L) VENTANA_SEGUNDOS).
Local Abbreviation panel' := (panel L cl ahora t_inicio ahora (leer_nombres fn)).

Local Abbreviation figura := (figura L cl fn fc).

Lemma main_draws :
  main L argv fs =
  {| exit_code := 0;
     stdout := ["✅ Imagen generada: " +:+ OUTPUT_FILENAME];
     traceback := None;
     saved := Some (OUTPUT_FILENAME, figura) |}.
Proof.
  rewrite main_unfold, client_ok, nombres_ok, codigos_ok.
  by destruct (leer_estaciones fc).
Qed.

Lemma figura_length : length (fig_axes figura) = length (leer_estaciones fc).
Proof.
  unfold figura. cbn [fig_axes]. by rewrite length_alter, length_fmap, length_imap.
Qed.

(** Axes [j] of the figure is the panel of station [j] with the locators
    of the shared x axis, and with the label if it is the last. *)
Lemma figura_lookup (j : nat) (e : estacion) :
  leer_estaciones fc !! j = Some e ->
  fig_axes figura !! j =
  Some (let a := ax_set_locators 10 5 (panel' j e new_axes) in
        if decide (S j = length (leer_estaciones fc))
        then ax_set_xlabel "Tiempo (Hora local)" a else a).
Proof.
  intros He. unfold figura. cbn [fig_axes].
  assert ((ax_set_locators 10 5 <$>
             imap (fun j e => panel' j e new_axes) (leer_estaciones fc)) !! j
          = Some (ax_set_locators 10 5 (panel' j e new_axes))) as Hj.
  { by rewrite list_lookup_fmap, list_lookup_imap, He. }
  pose proof (lookup_lt_Some _ _ _ He) as Hlt.
  destruct (decide (S j = length (leer_estaciones fc))) as [Hlast|Hnot].
  - replace (pred (length (leer_estaciones fc))) with j by lia.
    by rewrite list_lookup_alter_eq, Hj.
  - rewrite list_lookup_alter_ne by lia. by rewrite Hj.
Qed.

(** Panel [j] of the figure is the drawing of station [j]. *)
Lemma figura_panel (j : nat) (e : estacion) :
  leer_estaciones fc !! j = Some e ->
  exists a, fig_axes figura !! j = Some a /\ same_drawing a (panel' j e new_axes).
Proof.
  intros He. eexists. split; [by apply figura_lookup|].
  cbv zeta. by destruct (decide _).
Qed.

End RunFacts.

(** * The claims *)

(** C1.  A station of the loaded list whose [try] block raises an exception
    (in the fetch, the response removal, a filter, the scaling, the latency
    or the label) does not stop the run: the run ends with status 0 and the
    image, with one panel per station of the list; the panel of that station
    holds a single red line at amplitude zero from the start to the end of
    the time window, which is also its x range, and its left label is
    [[Sin datos] <station code>]; every station of the list, before or after
    it, has its own panel drawn. *)
Theorem failed_station_is_flat_red_panel
    (L : ObsPy) (argv : list string) (fs : gmap string (list string))
    (cl : client L) (fn fc : list string)
    (i : nat) (net full_sta loc cha : string) (exc : exn) :
  let ahora := UTCDateTime_now L in
  let t_inicio := utc_minus_seconds ahora VENTANA_SEGUNDOS in
  let sta := station_code full_sta in
  Client L FDSN_SERVER_URL = Ok cl ->
  fs !! ARCHIVO_ESTACIONES_NOMBRE = Some fn ->
  fs !! ARCHIVO_ESTACIONES_CODIGO argv = Some fc ->
  leer_estaciones fc !! i = Some (net, full_sta, loc, cha) ->
  intentar L cl ahora t_inicio ahora i net sta loc cha new_axes = Raise exc ->
  exists fig a,
    exit_code (main L argv fs) = 0%Z /\
    traceback (main L argv fs) = None /\
    saved (main L argv fs) = Some (OUTPUT_FILENAME, fig) /\
    length (fig_axes fig) = length (leer_estaciones fc) /\
    fig_axes fig !! i = Some a /\
    ax_lines a =
      [{| line_x := [matplotlib_date L t_inicio; matplotlib_date L ahora];
          line_y := [0%float; 0%float];
          line_fmt := "r-" |}] /\
    ax_xlim a = Some (matplotlib_date L t_inicio, matplotlib_date L ahora) /\
    left_text a = Some ("[Sin datos] " +:+ sta) /\
    latency_text a = None /\
    forall j e, leer_estaciones fc !! j = Some e ->
      exists b, fig_axes fig !! j = Some b /\
                same_drawing b (panel L cl ahora t_inicio ahora (leer_nombres fn) j e new_axes).
Proof.
  cbv zeta. intros Hcl Hfn Hfc Hi Hraise.
  assert (leer_estaciones fc <> []) as Hne by (intros E; by rewrite E in Hi).
  destruct (figura_panel L cl fn fc i _ Hi) as (a & Ha & Hl & Ht & Hx).
  exists (figura L cl fn fc), a.
  rewrite (main_draws L argv fs cl fn fc Hcl Hfn Hfc Hne). cbn [exit_code traceback saved].
  rewrite (panel_raise _ _ _ _ _ _ _ _ _ _ _ _ exc Hraise) in Hl, Ht, Hx.
  repeat split; try done.
  - apply figura_length.
  - unfold left_text, panel_texts. by rewrite Ht.
  - unfold latency_text, panel_texts. by rewrite Ht.
  - intros j e He. by apply figura_panel.
Qed.

(** The block raises exactly when one of its steps does: the fetch and the
    processing chain, the latency string, the peak, or the masking. *)
Lemma intentar_raise_steps
    (L : ObsPy) (cl : client L) (ahora t_inicio t_fin : UTCDateTime)
    (i : nat) (net sta loc cha : string) (a : Axes) :
  is_ok (intentar L cl ahora t_inicio t_fin i net sta loc cha a) = false <->
  is_ok (obtener_traza L cl t_inicio t_fin i net sta loc cha) = false \/
  exists tr, obtener_traza L cl t_inicio t_fin i net sta loc cha = Ok tr /\
    (is_ok (lat_str (lat_sec L ahora tr)) = false \/
     is_ok (peak tr) = false \/
     is_ok (bool_index (tr_times_matplotlib tr) (np_isfinite (data_cm_s2 tr))) = false).
Proof.
  unfold intentar, trazar.
  destruct (obtener_traza L cl t_inicio t_fin i net sta loc cha) as [tr|e]; cbn.
  2:{ split; [by left|done]. }
  split.
  - intros H. right. exists tr. split; [done|].
    destruct (lat_str (lat_sec L ahora tr)); [|by left]. cbn in H.
    destruct (peak tr); [|by right; left]. cbn in H.
    destruct (bool_index (tr_times_matplotlib tr) _); [|by right; right]. cbn in H.
    unfold np_isfinite in H. by rewrite bool_index_filter in H.
  - intros [H|(tr' & [= <-] & H)]; [done|].
    destruct (lat_str (lat_sec L ahora tr)); [cbn|done].
    destruct (peak tr); [cbn|done].
    destruct (bool_index (tr_times_matplotlib tr) _); [cbn|done].
    by destruct H as [H|[H|H]].
Qed.



(** The height as the two cases of [max]: the integer 3 when the product
    is below 3, the product otherwise. *)
Lemma IMG_HEIGHT_INCHES_cases (n : nat) :
  IMG_HEIGHT_INCHES n =
  if PrimFloat.ltb (0.5 * Z2float (Z.of_nat n)) 3 then PyInt 3
  else PyFloat (0.5 * Z2float (Z.of_nat n)).
Proof.
  unfold IMG_HEIGHT_INCHES, py_max, IMG_HEIGHT_PER_STATION.
  cbn [py_mul to_float]. unfold py_gt. cbn [to_float]. by rewrite Z2float_3.
Qed.

(** The height in exact terms, for every list of up to 4096 stations: 3 up
    to six stations, half the number of stations from six on. *)
Lemma IMG_HEIGHT_INCHES_value (n : nat) :
  (1 <= n <= 4096)%nat ->
  height_exact n = Some (half_or_three n).
Proof.
  intros Hn.
  assert (forallb (fun k => bool_decide (height_exact k = Some (half_or_three k)))
            (seq 1 4096) = true) as Hall by (vm_compute; reflexivity).
  rewrite forallb_forall in Hall.
  specialize (Hall n). rewrite bool_decide_eq_true in Hall. apply Hall.
  apply in_seq. lia.
Qed.

(** The same as two equations between integers: the height [num / den] is
    3 up to six stations and twice the height is the number of stations from
    six on. *)
Lemma IMG_HEIGHT_INCHES_max (n : nat) :
  (1 <= n <= 4096)%nat ->
  exists num den,
    float_exact (to_float (IMG_HEIGHT_INCHES n)) = Some (num, den) /\
    ((n <= 6)%nat -> num = (3 * Z.pos den)%Z) /\
    ((6 <= n)%nat -> (2 * num)%Z = (Z.of_nat n * Z.pos den)%Z).
Proof.
  intros Hn. pose proof (IMG_HEIGHT_INCHES_value n Hn) as Hv.
  unfold height_exact in Hv. rewrite Hv. unfold half_or_three.
  destruct (Nat.ltb_spec n 6) as [Hlt|Hge].
  - exists 3%Z, 1%positive. split; [done|]. split; lia.
  - destruct (Nat.even n) eqn:Hev.
    + apply Nat.even_spec in Hev as [k Hk].
      exists (Z.of_nat n / 2)%Z, 1%positive. split; [done|].
      assert (Z.of_nat n / 2 = Z.of_nat k)%Z as ->.
      { subst n. rewrite Nat2Z.inj_mul. change (Z.of_nat 2) with 2%Z.
        rewrite Z.mul_comm. by apply Z.div_mul. }
      split; lia.
    + exists (Z.of_nat n), 2%positive. split; [done|]. split; [|lia].
      intros Hle. assert (n = 6)%nat as -> by lia. done.
Qed.

(** C3.  When the station file gives [N >= 1] descriptors, the figure that
    is saved has exactly [N] axes, axes [i] being the panel of descriptor
    [i] of the list; the axes share the x axis: each has the time window as
    its range and the tick locators set through the last one.  The width is
    9.  The height is [max(0.5 * N, 3)]: the integer 3 when the binary64
    product [0.5 * N] is below 3 and this product otherwise, which for up to
    4096 stations is exactly 3 for [N <= 6] and exactly [N / 2] for
    [N >= 6]. *)
Theorem figure_has_one_panel_per_station
    (L : ObsPy) (argv : list string) (fs : gmap string (list string))
    (cl : client L) (fn fc : list string) :
  let ahora := UTCDateTime_now L in
  let t_inicio := utc_minus_seconds ahora VENTANA_SEGUNDOS in
  let N := length (leer_estaciones fc) in
  Client L FDSN_SERVER_URL = Ok cl ->
  fs !! ARCHIVO_ESTACIONES_NOMBRE = Some fn ->
  fs !! ARCHIVO_ESTACIONES_CODIGO argv = Some fc ->
  (1 <= N)%nat ->
  exists fig,
    saved (main L argv fs) = Some (OUTPUT_FILENAME, fig) /\
    length (fig_axes fig) = N /\
    fig_sharex fig = true /\
    (forall i a, fig_axes fig !! i = Some a ->
       ax_xlim a = Some (matplotlib_date L t_inicio, matplotlib_date L ahora) /\
       ax_major_minutes a = Some 10%Z /\ ax_minor_minutes a = Some 5%Z) /\
    fig_width fig = PyInt 9 /\
    fig_height fig =
      (if PrimFloat.ltb (0.5 * Z2float (Z.of_nat N)) 3 then PyInt 3
       else PyFloat (0.5 * Z2float (Z.of_nat N))) /\
    ((N <= 4096)%nat ->
     exists num den,
       float_exact (to_float (fig_height fig)) = Some (num, den) /\
       ((N <= 6)%nat -> num = (3 * Z.pos den)%Z) /\
       ((6 <= N)%nat -> (2 * num)%Z = (Z.of_nat N * Z.pos den)%Z)) /\
    forall i e, leer_estaciones fc !! i = Some e ->
      exists a, fig_axes fig !! i = Some a /\
                same_drawing a (panel L cl ahora t_inicio ahora (leer_nombres fn) i e new_axes).
Proof.
  cbv zeta. intros Hcl Hfn Hfc HN.
  assert (leer_estaciones fc <> []) as Hne by (intros E; rewrite E in HN; cbn in HN; lia).
  exists (figura L cl fn fc).
  rewrite (main_draws L argv fs cl fn fc Hcl Hfn Hfc Hne). cbn [saved].
  split; [done|]. split; [apply figura_length|]. split; [done|].
  split; [|split; [done|split; [|split]]].
  - intros i a Ha.
    assert (i < length (leer_estaciones fc))%nat as Hi.
    { apply lookup_lt_Some in Ha. by rewrite figura_length in Ha. }
    destruct (lookup_lt_is_Some_2 _ _ Hi) as [e He].
    rewrite (figura_lookup L cl fn fc i e He) in Ha. injection Ha as <-. cbv zeta.
    destruct (decide _); cbn [ax_set_xlabel ax_set_locators ax_xlim ax_major_minutes
                              ax_minor_minutes]; by rewrite panel_xlim.
  - apply IMG_HEIGHT_INCHES_cases.
  - intros Hle. apply IMG_HEIGHT_INCHES_max. lia.
  - intros i e He. by apply figura_panel.
Qed.

(** C4.  For a station whose [try] block succeeds, the left label is
    [[<peak> cm/s²] <station code>], where the peak is the NumPy maximum of
    the absolute values of all samples of the processed trace multiplied by
    100, written with the format [.2f].  When no sample is NaN this maximum
    is the absolute value of one of the scaled samples and no absolute value
    exceeds it; when it is finite it is written with exactly two decimals. *)
Theorem left_label_shows_peak
    (L : ObsPy) (cl : client L) (ahora t_inicio t_fin : UTCDateTime)
    (nombres : gmap string string)
    (i : nat) (net full_sta loc cha : string) (ll ls : string) (a' : Axes) :
  let sta := station_code full_sta in
  intentar L cl ahora t_inicio t_fin i net sta loc cha new_axes = Ok (ll, ls, a') ->
  exists tr p,
    obtener_traza L cl t_inicio t_fin i net sta loc cha = Ok tr /\
    np_max (np_abs (np_mul (tr_data tr) 100)) = Ok p /\
    ll = "[" +:+ format_float_f 2 p +:+ " cm/s²] " +:+ sta /\
    left_text (panel L cl ahora t_inicio t_fin nombres i (net, full_sta, loc, cha) new_axes)
      = Some ll /\
    (Forall (fun x => PrimFloat.is_nan x = false) (np_mul (tr_data tr) 100) ->
     In p (np_abs (np_mul (tr_data tr) 100)) /\
     Forall (fun x => PrimFloat.leb (PrimFloat.abs x) p = true) (np_mul (tr_data tr) 100)) /\
    (PrimFloat.is_finite p = true ->
     exists sgn ip fr, format_float_f 2 p = sgn +:+ ip +:+ "." +:+ fr /\
                       (sgn = "" \/ sgn = "-") /\ String.length fr = 2%nat).
Proof.
  cbv zeta. intros Hok.
  destruct (intentar_ok _ _ _ _ _ _ _ _ _ _ _ _ _ _ Hok) as (tr & Htr & Htz).
  destruct (trazar_ok _ _ _ _ _ _ _ _ Htz) as (p & x & Hls & Hp & Hll & Hx & Ha').
  exists tr, p. split; [done|]. split; [done|]. split; [done|]. split; [|split].
  - unfold left_text.
    by rewrite (panel_texts_ok L cl ahora t_inicio t_fin nombres _ _ _ _ _ _ _ _ Hok).
  - intros Hnan. unfold peak, data_cm_s2 in Hp.
    destruct (np_max_spec (np_abs (np_mul (tr_data tr) 100))) as (p' & Hp' & Hin & _ & Hall).
    + intros E. by rewrite E in Hp.
    + by apply np_abs_no_nan.
    + rewrite Hp in Hp'. injection Hp' as <-. split; [done|].
      unfold np_abs in Hall. by rewrite Forall_map in Hall.
  - by apply format_float_f_decimals.
Qed.

(** The tokens of a text are pieces of it, cut at characters. *)
Lemma Tokens_pieces (s : PyStr.str) (l : list PyStr.str) :
  Tokens s l ->
  Forall (fun w => w <> [] /\ PyStr.no_space w = true /\ exists a b, s = a ++ w ++ b) l.
Proof.
  induction 1 as [s Hs|gap w rest l Hg Hw Hn Hr _ IH]; constructor.
  - split; [done|]. split; [done|]. by exists gap, rest.
  - eapply Forall_impl; [exact IH|]. intros w' (? & ? & a & b & ->).
    split; [done|]. split; [done|]. exists (gap ++ w ++ a), b.
    by rewrite <- !app_assoc.
Qed.

(** A token of a line, written back as bytes, is not empty and has the
    characters of the token, none of them whitespace. *)
Lemma token_of_line (line : string) (w : PyStr.str) :
  In w (PyStr.split (PyStr.chars line)) ->
  PyStr.join w <> "" /\ PyStr.chars (PyStr.join w) = w /\ PyStr.no_space w = true.
Proof.
  intros Hin. pose proof (Tokens_pieces _ _ (split_Tokens (PyStr.chars line))) as H.
  rewrite List.Forall_forall in H. destruct (H w Hin) as (Hw & Hn & a & b & E).
  assert (wf w = true) as Hwf by (by eapply wf_piece).
  split; [by apply join_not_empty|]. split; [by apply chars_join|done].
Qed.


(** What a panel displays at the right. *)
Lemma shows_nombre_de
    (L : ObsPy) (cl : client L) (ahora t_inicio t_fin : UTCDateTime)
    (nombres : gmap string string) (i : nat) (net full_sta loc cha : string) :
  shows L cl ahora t_inicio t_fin nombres i (net, full_sta, loc, cha)
    (nombre_de nombres (station_code full_sta)).
Proof.
  unfold shows.
  destruct (intentar L cl ahora t_inicio t_fin i net (station_code full_sta) loc cha new_axes)
    as [[[ll ls] a']|exc] eqn:E.
  - unfold display_name.
    by rewrite (panel_texts_ok L cl ahora t_inicio t_fin nombres _ _ _ _ _ _ _ _ E).
  - unfold display_name.
    by rewrite (panel_texts_raise L cl ahora t_inicio t_fin nombres _ _ _ _ _ _ E).
Qed.

(** What a panel with data displays as latency. *)
Lemma latency_text_ok
    (L : ObsPy) (cl : client L) (ahora t_inicio t_fin : UTCDateTime)
    (nombres : gmap string string) (i : nat) (net full_sta loc cha : string)
    (ll ls : string) (a' : Axes) :
  intentar L cl ahora t_inicio t_fin i net (station_code full_sta) loc cha new_axes
    = Ok (ll, ls, a') ->
  exists tr,
    obtener_traza L cl t_inicio t_fin i net (station_code full_sta) loc cha = Ok tr /\
    lat_str (lat_sec L ahora tr) = Ok ls /\
    latency_text (panel L cl ahora t_inicio t_fin nombres i (net, full_sta, loc, cha) new_axes)
      = Some ls.
Proof.
  intros Hok.
  destruct (intentar_ok _ _ _ _ _ _ _ _ _ _ _ _ _ _ Hok) as (tr & Htr & Htz).
  destruct (trazar_ok _ _ _ _ _ _ _ _ Htz) as (p & x & Hls & Hp & Hll & Hx & Ha').
  exists tr. split; [done|]. split; [done|].
  unfold latency_text.
  by rewrite (panel_texts_ok L cl ahora t_inicio t_fin nombres _ _ _ _ _ _ _ _ Hok).
Qed.

(** C6, as stated, fails: with the code [CDM] on two lines of the name
    file, the first line begins with the code and has the remainder [Uno],
    and the panel shows [Dos]. *)
Lemma repeated_code_shows_last_name :
  ~ every_entry_is_shown demo tt demo_ahora demo_t_inicio demo_ahora
      nombres_repetidos 0 ("OV", "OV.CDM", "*", "H*").
Proof.
  intros [H _]. specialize (H "CDM Uno" "Uno").
  assert (NameLine "CDM Uno" "CDM" "Uno") as Hline by (by apply name_entry_iff).
  specialize (H ltac:(by left) Hline). vm_compute in H. discriminate.
Qed.

(** C6, amended.  When lines of the name file begin with the station code
    and have a non-empty remainder, the display name at the right of the
    panel is the remainder of the last such line; when no line begins with
    the code, or none that does has a remainder, it is the station code.  In
    both cases [ (sin datos)] follows when the station's block raised.
    Tokens and remainders are cut at the whitespace of [str.isspace]. *)
Theorem display_name_is_last_entry
    (L : ObsPy) (cl : client L) (ahora t_inicio t_fin : UTCDateTime)
    (fn : list string) (i : nat) (net full_sta loc cha : string) :
  let sta := station_code full_sta in
  let e := (net, full_sta, loc, cha) in
  (forall pre line post name,
     fn = pre ++ line :: post ->
     NameLine line sta name ->
     (forall l name', In l post -> ~ NameLine l sta name') ->
     shows L cl ahora t_inicio t_fin (leer_nombres fn) i e name) /\
  ((forall line, In line fn -> first_token line <> Some sta) ->
   shows L cl ahora t_inicio t_fin (leer_nombres fn) i e sta) /\
  ((forall line name, In line fn -> ~ NameLine line sta name) ->
   shows L cl ahora t_inicio t_fin (leer_nombres fn) i e sta).
Proof.
  cbv zeta.
  assert ((forall line name, In line fn -> ~ NameLine line (station_code full_sta) name) ->
          shows L cl ahora t_inicio t_fin (leer_nombres fn) i (net, full_sta, loc, cha)
            (station_code full_sta)) as Hbare.
  { intros Habs.
    pose proof (shows_nombre_de L cl ahora t_inicio t_fin
                  (leer_nombres fn) i net full_sta loc cha) as H.
    unfold nombre_de in H. rewrite leer_nombres_absent in H; [done|].
    intros l v Hl Hn%name_entry_iff. by eapply Habs. }
  split; [|split; [|done]].
  - intros pre line post name -> Hline%name_entry_iff Hpost.
    pose proof (shows_nombre_de L cl ahora t_inicio t_fin
                  (leer_nombres (pre ++ line :: post)) i net full_sta loc cha) as H.
    unfold nombre_de in H. rewrite (leer_nombres_last pre post line _ name) in H; [done..|].
    intros l name' Hl Hn%name_entry_iff. by eapply Hpost.
  - intros Habs. apply Hbare.
    intros l v Hl Hn%NameLine_first_token. by eapply Habs.
Qed.

(** C7.  The latency of a trace is written in seconds,
    [(latencia <lat, one decimal>s)], when it is below 60, and in minutes,
    [(latencia <lat/60, one decimal>m)], when it is 60 or more; one of the
    two always applies, and this string is the latency text of the panel. *)
Theorem latency_label_switches_at_60
    (L : ObsPy) (cl : client L) (ahora t_inicio t_fin : UTCDateTime)
    (nombres : gmap string string) (tr : Trace) :
  let lat := lat_sec L ahora tr in
  (py_lt lat (PyInt 60) = true ->
   lat_str lat = Ok ("(latencia " +:+ py_format_f 1 lat +:+ "s)")) /\
  (PrimFloat.leb 60 (to_float lat) = true ->
   lat_str lat = Ok ("(latencia " +:+ format_float_f 1 (to_float lat / 60) +:+ "m)")) /\
  (py_lt lat (PyInt 60) = true \/ PrimFloat.leb 60 (to_float lat) = true) /\
  (forall i net full_sta loc cha ll ls a',
     intentar L cl ahora t_inicio t_fin i net (station_code full_sta) loc cha new_axes
       = Ok (ll, ls, a') ->
     obtener_traza L cl t_inicio t_fin i net (station_code full_sta) loc cha = Ok tr ->
     lat_str lat = Ok ls /\
     latency_text (panel L cl ahora t_inicio t_fin nombres i (net, full_sta, loc, cha) new_axes)
       = Some ls).
Proof.
  cbv zeta. unfold lat_sec. rewrite py_max_0.
  set (d := utc_sub L ahora (tr_stats_endtime tr)).
  split; [|split; [|split]].
  - intros H. unfold lat_str. by rewrite H.
  - destruct (PrimFloat.ltb 0 d) eqn:Hd; [|by vm_compute].
    cbn [to_float]. intros H%leb_not_ltb.
    unfold lat_str. rewrite py_lt_float_60, H, py_truediv_60. done.
  - destruct (PrimFloat.ltb 0 d) eqn:Hd; [|by left].
    rewrite py_lt_float_60. cbn [to_float].
    apply ltb_not_nan in Hd as [_ Hd]. by apply ltb_or_leb.
  - intros i net full_sta loc cha ll ls a' Hok Htr.
    destruct (latency_text_ok L cl ahora t_inicio t_fin nombres _ _ _ _ _ _ _ _ Hok)
      as (tr' & Htr' & Hls & Htxt).
    rewrite Htr in Htr'. injection Htr' as <-.
    unfold lat_sec in Hls. rewrite py_max_0 in Hls. done.
Qed.

(** C8.  Once [get_waveforms] has returned a stream, the block applies to
    it, each step to the result of the one before: the response removal with
    output [ACC], the highpass filter, the lowpass filter, the bandstop
    filter between 49 and 51, and then takes the first trace and multiplies
    its samples by 100; what it draws and labels is made of these scaled
    samples. *)
Theorem processing_order
    (L : ObsPy) (cl : client L) (ahora t_inicio t_fin : UTCDateTime)
    (i : nat) (net sta loc cha : string) (st0 : Stream) :
  get_waveforms L cl i
    {| network := net; station := sta; location := loc; channel := cha;
       starttime := t_inicio; endtime := t_fin; attach_response := true |} = Ok st0 ->
  obtener_traza L cl t_inicio t_fin i net sta loc cha =
    (st1 ← remove_response L "ACC" true true st0;
     st2 ← stream_filter L (highpass 0.1 4 true) st1;
     st3 ← stream_filter L (lowpass 10 4 true) st2;
     st4 ← stream_filter L (bandstop (PyInt 49) (PyInt 51) 2 true) st3;
     stream_getitem st4 0) /\
  forall a ll ls a',
    intentar L cl ahora t_inicio t_fin i net sta loc cha a = Ok (ll, ls, a') ->
    exists st1 st2 st3 st4 tr p x,
      remove_response L "ACC" true true st0 = Ok st1 /\
      stream_filter L (highpass 0.1 4 true) st1 = Ok st2 /\
      stream_filter L (lowpass 10 4 true) st2 = Ok st3 /\
      stream_filter L (bandstop (PyInt 49) (PyInt 51) 2 true) st3 = Ok st4 /\
      st4 !! 0%nat = Some tr /\
      data_cm_s2 tr = List.map (fun v => (v * 100)%float) (tr_data tr) /\
      np_max (np_abs (data_cm_s2 tr)) = Ok p /\
      ll = "[" +:+ format_float_f 2 p +:+ " cm/s²] " +:+ sta /\
      a' = ax_plot x (List.filter PrimFloat.is_finite (data_cm_s2 tr)) "b-" a.
Proof.
  intros Hget. split.
  - unfold obtener_traza. by rewrite Hget.
  - intros a ll ls a' Hok.
    destruct (intentar_ok _ _ _ _ _ _ _ _ _ _ _ _ _ _ Hok) as (tr & Htr & Htz).
    apply obtener_traza_ok in Htr as (st0' & st1 & st2 & st3 & st4 & H0 & H1 & H2 & H3 & H4 & H5).
    rewrite Hget in H0. injection H0 as <-.
    destruct (trazar_ok _ _ _ _ _ _ _ _ Htz) as (p & x & Hls & Hp & Hll & Hx & Ha').
    exists st1, st2, st3, st4, tr, p, x. done.
Qed.

(** C9.  The latency of a trace is [max(0, ahora - tr.stats.endtime)]; it
    is never below zero and never a NaN; when the last sample is not before
    [ahora] it is exactly the integer 0, written [(latencia 0.0s)].  A run
    takes [ahora] once, before the loop, and it is the latency computed from
    it that each panel with data shows. *)
Theorem latency_never_negative (L : ObsPy) (ahora : UTCDateTime) (tr : Trace) :
  utc_sub_sound L ->
  let lat := lat_sec L ahora tr in
  lat = py_max (PyInt 0) (PyFloat (utc_sub L ahora (tr_stats_endtime tr))) /\
  py_lt lat (PyInt 0) = false /\
  PrimFloat.is_nan (to_float lat) = false /\
  ((utc_ns ahora <= utc_ns (tr_stats_endtime tr))%Z ->
   lat = PyInt 0 /\ lat_str lat = Ok "(latencia 0.0s)") /\
  (forall argv fs name fig,
     saved (main L argv fs) = Some (name, fig) ->
     exists cl fn fc, fig = figura L cl fn fc) /\
  (forall cl t_inicio t_fin nombres i net full_sta loc cha ll ls a',
     intentar L cl ahora t_inicio t_fin i net (station_code full_sta) loc cha new_axes
       = Ok (ll, ls, a') ->
     obtener_traza L cl t_inicio t_fin i net (station_code full_sta) loc cha = Ok tr ->
     lat_str lat = Ok ls /\
     latency_text (panel L cl ahora t_inicio t_fin nombres i (net, full_sta, loc, cha) new_axes)
       = Some ls).
Proof.
  intros Hsound. cbv zeta. split; [done|].
  unfold lat_sec. rewrite py_max_0.
  set (d := utc_sub L ahora (tr_stats_endtime tr)).
  split; [|split; [|split; [|split]]].
  - destruct (PrimFloat.ltb 0 d) eqn:Hd; [|done].
    unfold py_lt, py_gt. cbn [to_float]. rewrite Z2float_0. by apply ltb_asym.
  - destruct (PrimFloat.ltb 0 d) eqn:Hd; [|done].
    cbn [to_float]. by apply ltb_not_nan in Hd as [_ Hd].
  - intros Hle. unfold d. by rewrite (Hsound _ _ Hle).
  - intros argv fs name fig. rewrite main_unfold.
    destruct (Client L FDSN_SERVER_URL) as [cl|] eqn:Hcl; [|done].
    destruct (fs !! ARCHIVO_ESTACIONES_NOMBRE) as [fn|] eqn:Hfn; [|done].
    destruct (fs !! ARCHIVO_ESTACIONES_CODIGO argv) as [fc|] eqn:Hfc; [|done].
    destruct (leer_estaciones fc) as [|e rest] eqn:E; [done|].
    cbn [saved]. intros [= _ <-]. by exists cl, fn, fc.
  - intros cl t_inicio t_fin nombres i net full_sta loc cha ll ls a' Hok Htr.
    destruct (latency_text_ok L cl ahora t_inicio t_fin nombres _ _ _ _ _ _ _ _ Hok)
      as (tr' & Htr' & Hls & Htxt).
    rewrite Htr in Htr'. injection Htr' as <-.
    unfold lat_sec in Hls. rewrite py_max_0 in Hls. done.
Qed.

(** C10.  For a station whose block succeeds, the blue line holds exactly
    the (time, sample) pairs of the scaled trace whose sample is finite, in
    order, while the peak in the label is the maximum over the absolute
    values of all scaled samples: one NaN sample makes the peak NaN, and
    without NaN one infinite sample makes it infinite. *)
Theorem mask_hides_nonfinite_but_peak_sees_them
    (L : ObsPy) (cl : client L) (ahora t_inicio t_fin : UTCDateTime)
    (i : nat) (net sta loc cha : string) (a : Axes) (ll ls : string) (a' : Axes) :
  intentar L cl ahora t_inicio t_fin i net sta loc cha a = Ok (ll, ls, a') ->
  exists tr x p,
    obtener_traza L cl t_inicio t_fin i net sta loc cha = Ok tr /\
    a' = ax_plot x (List.filter PrimFloat.is_finite (data_cm_s2 tr)) "b-" a /\
    combine x (List.filter PrimFloat.is_finite (data_cm_s2 tr)) =
      List.filter (fun tv => PrimFloat.is_finite (snd tv))
        (combine (tr_times_matplotlib tr) (data_cm_s2 tr)) /\
    Forall (fun v => PrimFloat.is_finite v = true)
      (List.filter PrimFloat.is_finite (data_cm_s2 tr)) /\
    np_max (np_abs (data_cm_s2 tr)) = Ok p /\
    ll = "[" +:+ format_float_f 2 p +:+ " cm/s²] " +:+ sta /\
    (Exists (fun v => PrimFloat.is_nan v = true) (data_cm_s2 tr) -> p = nan) /\
    (Forall (fun v => PrimFloat.is_nan v = false) (data_cm_s2 tr) ->
     Exists (fun v => PrimFloat.is_infinity v = true) (data_cm_s2 tr) -> p = infinity).
Proof.
  intros Hok.
  destruct (intentar_ok _ _ _ _ _ _ _ _ _ _ _ _ _ _ Hok) as (tr & Htr & Htz).
  destruct (trazar_ok _ _ _ _ _ _ _ _ Htz) as (p & x & Hls & Hp & Hll & Hx & Ha').
  exists tr, x, p. unfold peak in Hp.
  split; [done|]. split; [done|]. split; [by apply bool_index_pairs|].
  split; [|split; [done|split; [done|split]]].
  - apply List.Forall_forall. by intros v [_ Hv]%filter_In.
  - intros Hex. rewrite np_max_nan in Hp; [by injection Hp|].
    apply List.Exists_exists in Hex as (v & Hv & Hnan).
    apply List.Exists_exists. exists (PrimFloat.abs v).
    split; [by apply in_map|by rewrite is_nan_abs].
  - intros Hall Hex.
    destruct (np_max_spec (np_abs (data_cm_s2 tr))) as (p' & Hp' & _ & _ & Hle).
    + intros E. by rewrite E in Hp.
    + by apply np_abs_no_nan.
    + rewrite Hp in Hp'. injection Hp' as <-.
      apply List.Exists_exists in Hex as (v & Hv & Hinf).
      apply leb_infinity. rewrite <- (is_infinity_abs v Hinf).
      unfold np_abs in Hle. rewrite Forall_map in Hle.
      rewrite List.Forall_forall in Hle. by apply Hle.
Qed.

(** * The hypotheses of the claims hold on the small library *)

(** [failed_station_is_flat_red_panel] at station [JACO], second of the
    list, for which the server has no data. *)
Lemma failed_station_witness :
  leer_estaciones demo_codigos !! 1%nat = Some ("OV", "JACO", "*", "H*") /\
  intentar demo tt demo_ahora demo_t_inicio demo_ahora 1 "OV" "JACO" "*" "H*" new_axes
    = Raise (Exception "FDSNNoDataException") /\
  exists fig a,
    saved (main demo ["fsdn2plot.py"] demo_fs) = Some (OUTPUT_FILENAME, fig) /\
    length (fig_axes fig) = 3%nat /\
    fig_axes fig !! 1%nat = Some a /\
    left_text a = Some "[Sin datos] JACO".
Proof.
  split; [reflexivity|]. split; [reflexivity|].
  destruct (failed_station_is_flat_red_panel demo ["fsdn2plot.py"] demo_fs tt
              demo_nombres demo_codigos 1 "OV" "JACO" "*" "H*"
              (Exception "FDSNNoDataException"))
    as (fig & a & _ & _ & Hs & Hlen & Ha & _ & _ & Hl & _);
    [reflexivity..|].
  exists fig, a. repeat split; assumption.
Defined.

(** [figure_has_one_panel_per_station] on the three stations of the small
    station file, where the minimum applies, and on a file of eight
    stations, where the height is half their number. *)
Lemma figure_witness :
  (1 <= length (leer_estaciones demo_codigos))%nat /\
  (1 <= length (leer_estaciones ocho_codigos))%nat /\
  (exists fig,
    saved (main demo ["fsdn2plot.py"] demo_fs) = Some (OUTPUT_FILENAME, fig) /\
    length (fig_axes fig) = 3%nat /\
    fig_width fig = PyInt 9 /\
    fig_height fig = PyInt 3) /\
  (exists fig,
    saved (main demo ["fsdn2plot.py"; "ocho.txt"] ocho_fs) = Some (OUTPUT_FILENAME, fig) /\
    length (fig_axes fig) = 8%nat /\
    fig_width fig = PyInt 9 /\
    fig_height fig = PyFloat 4 /\
    exists num den,
      float_exact (to_float (fig_height fig)) = Some (num, den) /\
      (2 * num)%Z = (8 * Z.pos den)%Z).
Proof.
  split; [vm_compute; lia|]. split; [vm_compute; lia|]. split.
  - destruct (figure_has_one_panel_per_station demo ["fsdn2plot.py"] demo_fs tt
                demo_nombres demo_codigos)
      as (fig & Hs & Hlen & _ & _ & Hw & Hh & _);
      [reflexivity|reflexivity|reflexivity|vm_compute; lia|].
    exists fig. repeat split; assumption.
  - destruct (figure_has_one_panel_per_station demo ["fsdn2plot.py"; "ocho.txt"] ocho_fs tt
                demo_nombres ocho_codigos)
      as (fig & Hs & Hlen & _ & _ & Hw & Hh & Hex & _);
      [reflexivity|reflexivity|reflexivity|vm_compute; lia|].
    exists fig. split; [assumption|]. split; [assumption|]. split; [assumption|].
    split; [assumption|].
    destruct Hex as (num & den & Hv & _ & H6); [vm_compute; lia|].
    exists num, den. split; [assumption|]. apply H6. vm_compute. lia.
Defined.

(** [left_label_shows_peak] at station [SJS], whose three samples are
    finite. *)
Lemma left_label_witness :
  exists ll ls a',
    intentar demo tt demo_ahora demo_t_inicio demo_ahora 2 "TC" (station_code "SJS") "*" "H*"
      new_axes = Ok (ll, ls, a') /\
    ll = "[3025.00 cm/s²] SJS" /\
    exists tr p,
      obtener_traza demo tt demo_t_inicio demo_ahora 2 "TC" (station_code "SJS") "*" "H*"
        = Ok tr /\
      np_max (np_abs (np_mul (tr_data tr) 100)) = Ok p /\
      ll = "[" +:+ format_float_f 2 p +:+ " cm/s²] " +:+ station_code "SJS".
Proof.
  eexists _, _, _. split; [vm_compute; reflexivity|]. split; [reflexivity|].
  destruct (left_label_shows_peak demo tt demo_ahora demo_t_inicio demo_ahora ∅
              2 "TC" "SJS" "*" "H*" _ _ _ ltac:(vm_compute; reflexivity))
    as (tr & p & Htr & Hp & Hll & _).
  exists tr, p. repeat split; assumption.
Defined.

(** [processing_order] at station [SJS]. *)
Lemma processing_order_witness :
  get_waveforms demo tt 2
    {| network := "TC"; station := "SJS"; location := "*"; channel := "H*";
       starttime := demo_t_inicio; endtime := demo_ahora; attach_response := true |}
    = Ok [sjs_trace] /\
  obtener_traza demo tt demo_t_inicio demo_ahora 2 "TC" "SJS" "*" "H*" =
    (st1 ← remove_response demo "ACC" true true [sjs_trace];
     st2 ← stream_filter demo (highpass 0.1 4 true) st1;
     st3 ← stream_filter demo (lowpass 10 4 true) st2;
     st4 ← stream_filter demo (bandstop (PyInt 49) (PyInt 51) 2 true) st3;
     stream_getitem st4 0).
Proof.
  split; [reflexivity|].
  apply (processing_order demo tt demo_ahora demo_t_inicio demo_ahora 2 "TC" "SJS" "*" "H*"
           [sjs_trace]).
  reflexivity.
Defined.

(** [latency_never_negative] on the small library, whose time difference
    is sound, with a last sample five seconds after [ahora]. *)
Lemma latency_witness :
  utc_sub_sound demo /\
  lat_sec demo demo_ahora
    {| tr_data := []; tr_times_matplotlib := [];
       tr_stats_endtime := {| utc_ns := 1005 * 10 ^ 9 |} |} = PyInt 0.
Proof.
  assert (utc_sub_sound demo) as Hsound.
  { intros a b Hab. cbn. unfold demo_utc_sub.
    destruct (Z.leb_spec (utc_ns a) (utc_ns b)); [reflexivity|lia]. }
  split; [exact Hsound|].
  destruct (latency_never_negative demo demo_ahora
              {| tr_data := []; tr_times_matplotlib := [];
                 tr_stats_endtime := {| utc_ns := 1005 * 10 ^ 9 |} |} Hsound)
    as (_ & _ & _ & H & _).
  apply H. vm_compute. discriminate.
Defined.

(** [mask_hides_nonfinite_but_peak_sees_them] at station [CDM], whose third
    sample is infinite. *)
Lemma mask_witness :
  exists ll ls a',
    intentar demo tt demo_ahora demo_t_inicio demo_ahora 0 "OV" "CDM" "*" "H*" new_axes
      = Ok (ll, ls, a') /\
    ll = "[inf cm/s²] CDM" /\
    List.map line_x (ax_lines a') = [[1; 2; 4]%float] /\
    exists tr x p,
      obtener_traza demo tt demo_t_inicio demo_ahora 0 "OV" "CDM" "*" "H*" = Ok tr /\
      a' = ax_plot x (List.filter PrimFloat.is_finite (data_cm_s2 tr)) "b-" new_axes /\
      np_max (np_abs (data_cm_s2 tr)) = Ok p.
Proof.
  eexists _, _, _. split; [vm_compute; reflexivity|].
  split; [reflexivity|]. split; [reflexivity|].
  destruct (mask_hides_nonfinite_but_peak_sees_them demo tt demo_ahora demo_t_inicio
              demo_ahora 0 "OV" "CDM" "*" "H*" new_axes _ _ _ ltac:(vm_compute; reflexivity))
    as (tr & x & p & Htr & Ha' & _ & _ & Hp & _).
  exists tr, x, p. repeat split; assumption.
Defined.



(** [display_name_is_last_entry] on the name file with the code [CDM] on
    two lines: the second line is the last one; its name follows an em
    space and is followed by a no-break space. *)
Lemma display_name_witness :
  NameLine ("CDM" +:+ em_space +:+ "Dos" +:+ nbsp) (station_code "OV.CDM") "Dos" /\
  shows demo tt demo_ahora demo_t_inicio demo_ahora (leer_nombres nombres_unicode)
    0 ("OV", "OV.CDM", "*", "H*") "Dos".
Proof.
  assert (NameLine ("CDM" +:+ em_space +:+ "Dos" +:+ nbsp) (station_code "OV.CDM") "Dos")
    as Hline by (apply name_entry_iff; reflexivity).
  split; [exact Hline|].
  destruct (display_name_is_last_entry demo tt demo_ahora demo_t_inicio demo_ahora
              nombres_unicode 0 "OV" "OV.CDM" "*" "H*") as [H _].
  apply (H ["CDM Uno"] ("CDM" +:+ em_space +:+ "Dos" +:+ nbsp) [] "Dos");
    [reflexivity|exact Hline|].
  intros l name' [].
Defined.

(** [latency_label_switches_at_60] on the two traces of the small library:
    12.5 seconds and 75 seconds. *)
Lemma latency_label_witness :
  lat_str (lat_sec demo demo_ahora sjs_trace) = Ok "(latencia 12.5s)" /\
  lat_str (lat_sec demo demo_ahora cdm_trace) = Ok "(latencia 1.2m)".
Proof.
  split.
  - destruct (latency_label_switches_at_60 demo tt demo_ahora demo_t_inicio demo_ahora ∅
                sjs_trace) as (H & _).
    rewrite H; reflexivity.
  - destruct (latency_label_switches_at_60 demo tt demo_ahora demo_t_inicio demo_ahora ∅
                cdm_trace) as (_ & H & _).
    rewrite H; reflexivity.
Defined.

(** * More properties of the script *)

(** ** The station file *)

Lemma descriptor_well_formed (line : string) (e : estacion) :
  descriptor line = Some e ->
  is_token (e.1.1.1) /\ is_token (e.1.1.2) /\ e.1.2 = "*" /\ e.2 = "H*".
Proof.
  unfold descriptor. pose proof (token_of_line line) as Htok.
  destruct (PyStr.split (PyStr.chars line)) as [|net [|full_sta more]]; try done.
  intros [= <-]. cbn [fst snd]. unfold is_token.
  destruct (Htok net ltac:(by left)) as (? & -> & ?).
  destruct (Htok full_sta ltac:(by right; left)) as (? & -> & ?). done.
Qed.

(** X1.  Every descriptor of the station list has a network and a station
    identifier that are tokens (not empty, free of the whitespace characters
    of [str.isspace]), the location [*] and the channel [H*], whatever the
    file holds. *)
Theorem leer_estaciones_well_formed (f : list string) :
  Forall (fun e : estacion =>
            is_token (e.1.1.1) /\ is_token (e.1.1.2) /\ e.1.2 = "*" /\ e.2 = "H*")
         (leer_estaciones f).
Proof.
  rewrite leer_estaciones_omap. induction f as [|line f IH]; [constructor|].
  cbn [omap list_omap]. destruct (descriptor line) as [e|] eqn:E; [|done].
  constructor; [by eapply descriptor_well_formed|done].
Qed.

(** X2.  Reading two files one after the other gives the two lists one after
    the other: the order of the lines is kept and a station that comes twice
    is listed twice. *)
Theorem leer_estaciones_app (f1 f2 : list string) :
  leer_estaciones (f1 ++ f2) = leer_estaciones f1 ++ leer_estaciones f2.
Proof. rewrite !leer_estaciones_omap. apply omap_app. Qed.

(** X3.  The list has as many descriptors as the file has lines with two
    tokens or more, hence never more than the file has lines. *)
Theorem leer_estaciones_length (f : list string) :
  length (leer_estaciones f) =
    length (List.filter
              (fun line => (2 <=? length (PyStr.split (PyStr.chars line)))%nat) f) /\
  (length (leer_estaciones f) <= length f)%nat.
Proof.
  rewrite leer_estaciones_omap. induction f as [|line f [IH1 IH2]]; [done|].
  cbn [omap list_omap List.filter].
  assert ((2 <=? length (PyStr.split (PyStr.chars line)))%nat =
          match descriptor line with Some _ => true | None => false end) as ->.
  { unfold descriptor. by destruct (PyStr.split (PyStr.chars line)) as [|? [|? ?]]. }
  destruct (descriptor line); cbn [length]; split; lia.
Qed.

(** ** The name file *)

Lemma split_not_blank (s : PyStr.str) : at_boundary s = false -> PyStr.split s <> [].
Proof.
  destruct s as [|c s]; [done|]. cbn [at_boundary PyStr.split]. intros ->.
  destruct s as [|c' s]; [done|]. destruct (PyStr.isspace c'); [done|].
  by destruct (PyStr.split (c' :: s)).
Qed.

(** A line that sets a name has two tokens or more. *)
Lemma NameLine_two_tokens (line k v : string) :
  NameLine line k v -> (2 <= length (PyStr.split (PyStr.chars line)))%nat.
Proof.
  intros (lead & k' & gap & v' & trail & -> & _ & _ &
          Hlead & Hk0 & Hk & Hg0 & Hg & Hv & Hfix & Htrail).
  rewrite split_app_gap by done.
  rewrite split_app_token; [|done..|].
  2:{ rewrite at_boundary_app by done. by apply only_space_boundary. }
  rewrite split_app_gap by done.
  assert (PyStr.split (v' ++ trail) <> []) as Hne.
  { apply split_not_blank. rewrite at_boundary_app; [done|]. by intros ->. }
  destruct (PyStr.split (v' ++ trail)); [done|]. cbn. lia.
Qed.

Lemma NameLine_well_formed (line k v : string) :
  NameLine line k v -> is_token k /\ is_name v.
Proof.
  intros (lead & k' & gap & v' & trail & E & -> & -> &
          Hlead & Hk0 & Hk & Hg0 & Hg & Hv & Hfix & Htrail).
  assert (PyStr.chars (PyStr.join k') = k') as Ek by (by eapply chars_join_piece).
  assert (PyStr.chars (PyStr.join v') = v') as Ev.
  { apply (chars_join_piece line (lead ++ k' ++ gap) v' trail).
    by rewrite <- !app_assoc. }
  unfold is_token, is_name. rewrite Ek, Ev. repeat split; try done.
  apply join_not_empty; [|done]. by eapply wf_piece.
Qed.

(** Where a value of the dictionary comes from. *)
Lemma fold_nombre_step_lookup (f : list string) (m : gmap string string) (k v : string) :
  fold_left nombre_step f m !! k = Some v ->
  m !! k = Some v \/ exists line, In line f /\ name_entry line = Some (k, v).
Proof.
  revert m. induction f as [|line f IH]; intros m; [by left|].
  cbn [fold_left]. intros [H|(l & Hl & He)]%IH.
  - rewrite nombre_step_entry in H.
    destruct (name_entry line) as [[k' v']|] eqn:E; [|by left].
    destruct (decide (k' = k)) as [->|Hne].
    + rewrite lookup_insert_eq in H. injection H as ->.
      right. exists line. split; [by left|done].
    + rewrite lookup_insert_ne in H by done. by left.
  - right. exists l. split; [by right|done].
Qed.

(** X4.  Every key of the name dictionary is a token (not empty, free of
    the whitespace characters of [str.isspace]) and every name in it is not
    empty and has no whitespace character at either end, whatever the file
    holds. *)
Theorem leer_nombres_well_formed (f : list string) (k v : string) :
  leer_nombres f !! k = Some v -> is_token k /\ is_name v.
Proof.
  intros [H|(line & _ & He)]%fold_nombre_step_lookup; [done|].
  by apply name_entry_iff, NameLine_well_formed in He.
Qed.

(** A key, once set, stays set. *)
Lemma fold_nombre_step_keeps (f : list string) (m : gmap string string) (k : string) :
  is_Some (m !! k) -> is_Some (fold_left nombre_step f m !! k).
Proof.
  revert m. induction f as [|line f IH]; intros m Hm; [done|].
  cbn [fold_left]. apply IH. rewrite nombre_step_entry.
  destruct (name_entry line) as [[k' v']|]; [|done].
  destruct (decide (k' = k)) as [->|Hne].
  - rewrite lookup_insert_eq. by eexists.
  - by rewrite lookup_insert_ne.
Qed.

(** X5.  A code is a key of the name dictionary exactly when some line of
    the file begins with it and has a remainder; the name stored then is the
    remainder of one of these lines. *)
Theorem leer_nombres_domain (f : list string) (k : string) :
  (is_Some (leer_nombres f !! k) <-> exists line name, In line f /\ NameLine line k name) /\
  (forall v, leer_nombres f !! k = Some v -> exists line, In line f /\ NameLine line k v).
Proof.
  assert (forall v, leer_nombres f !! k = Some v ->
                    exists line, In line f /\ NameLine line k v) as Hv.
  { intros v [H|(line & Hl & He)]%fold_nombre_step_lookup; [done|].
    exists line. split; [done|]. by apply name_entry_iff. }
  split; [|done]. split.
  - intros [v (line & Hl & Hn)%Hv]. eauto.
  - intros (line & name & (pre & post & ->)%in_split & Hn%name_entry_iff).
    unfold leer_nombres. rewrite fold_nombre_step_app. cbn [fold_left].
    apply fold_nombre_step_keeps. rewrite nombre_step_entry, Hn, lookup_insert_eq.
    by eexists.
Qed.

Lemma name_entry_few_tokens (line : string) :
  (length (PyStr.split (PyStr.chars line)) < 2)%nat -> name_entry line = None.
Proof.
  intros Hlen. destruct (name_entry line) as [[k v]|] eqn:E; [|done].
  apply name_entry_iff, NameLine_two_tokens in E. lia.
Qed.

(** X6.  A line of the name file with fewer than two tokens (a blank line,
    a code without a name) changes nothing: the dictionary is the one of the
    file without that line, so such a line never removes or replaces a name
    set by another line. *)
Theorem leer_nombres_skip (pre post : list string) (line : string) :
  (length (PyStr.split (PyStr.chars line)) < 2)%nat ->
  leer_nombres (pre ++ line :: post) = leer_nombres (pre ++ post).
Proof.
  intros Hlen%name_entry_few_tokens. unfold leer_nombres.
  rewrite !fold_nombre_step_app. cbn [fold_left].
  by rewrite nombre_step_entry, Hlen.
Qed.

Lemma fold_nombre_step_union (f : list string) (m : gmap string string) :
  fold_left nombre_step f m = fold_left nombre_step f ∅ ∪ m.
Proof.
  revert m. induction f as [|line f IH]; intros m.
  - cbn. by rewrite (left_id_L ∅ (∪)).
  - cbn [fold_left]. rewrite (IH (nombre_step m line)), (IH (nombre_step ∅ line)).
    rewrite <- (assoc_L (∪)). f_equal. rewrite !nombre_step_entry.
    destruct (name_entry line) as [[k v]|].
    + by rewrite insert_empty, insert_union_singleton_l.
    + by rewrite (left_id_L ∅ (∪)).
Qed.

(** X7.  The dictionary of two name files read one after the other is the
    dictionary of the second completed by the one of the first: a code named
    in both has the name of the second. *)
Theorem leer_nombres_app (f1 f2 : list string) :
  leer_nombres (f1 ++ f2) = leer_nombres f2 ∪ leer_nombres f1.
Proof.
  unfold leer_nombres. rewrite fold_nombre_step_app. apply fold_nombre_step_union.
Qed.

(** ** The station code *)

(** X8.  The station code is an end piece of the identifier, never longer
    than it; taking the code of a code changes nothing; with exactly one dot
    in the identifier the code has no dot. *)
Theorem station_code_suffix (full_sta : string) :
  (exists pre, full_sta = pre +:+ station_code full_sta) /\
  (String.length (station_code full_sta) <= String.length full_sta)%nat /\
  station_code (station_code full_sta) = station_code full_sta /\
  (PyStr.count "." full_sta = 1%nat -> PyStr.count "." (station_code full_sta) = 0%nat).
Proof.
  destruct (decide (PyStr.count "." full_sta = 1%nat)) as [Hone|Hnot].
  - destruct (station_code_one_dot _ Hone) as (a & b & Hs & _ & Hb & Hcode).
    rewrite Hcode. split; [|split; [|split]].
    + exists (a +:+ "."). by rewrite str_app_assoc.
    + rewrite Hs, !str_length_app. lia.
    + apply station_code_other. lia.
    + done.
  - rewrite (station_code_other _ Hnot). split; [by exists ""|].
    split; [lia|]. split; [by apply station_code_other|done].
Qed.

(** ** The [try] block *)

(** The latency string is always there: formatting never raises. *)
Lemma lat_str_total (lat : pynum) : exists ls, lat_str lat = Ok ls /\ ls <> "".
Proof.
  unfold lat_str. destruct (py_lt lat (PyInt 60)).
  - eexists. split; [reflexivity|done].
  - rewrite py_truediv_60. eexists. split; [reflexivity|done].
Qed.

Lemma bool_index_total {A} (a : list A) (mask : list bool) :
  length a = length mask -> exists r, bool_index a mask = Ok r.
Proof.
  revert mask. induction a as [|x a IH]; intros [|b mask] Hlen; try done.
  - by exists [].
  - cbn in Hlen. destruct (IH mask) as (r & Hr); [lia|].
    cbn. rewrite Hr. cbn. eauto.
Qed.

Lemma bool_index_length {A} (a : list A) (mask : list bool) (r : list A) :
  bool_index a mask = Ok r -> length r = length (List.filter id mask).
Proof.
  revert mask r. induction a as [|x a IH]; intros [|b mask] r; try done.
  - by intros [= <-].
  - cbn. destruct (bool_index a mask) as [r'|] eqn:E; [|done].
    cbn. intros [= <-]. specialize (IH _ _ E). destruct b; cbn; lia.
Qed.

Lemma np_isfinite_length (d : list float) : length (np_isfinite d) = length d.
Proof. apply length_map. Qed.

Lemma data_cm_s2_length (tr : Trace) : length (data_cm_s2 tr) = length (tr_data tr).
Proof. apply length_map. Qed.

(** X9.  Once a trace has come out of the processing chain, the rest of the
    block succeeds exactly when the trace has at least one sample and as
    many times as samples: nothing else, neither a NaN or an infinite sample
    nor any latency, turns a processed trace into a panel without data. *)
Theorem trazar_succeeds_iff
    (L : ObsPy) (ahora : UTCDateTime) (sta : string) (tr : Trace) (a : Axes) :
  is_ok (trazar L ahora sta tr a) = true <->
  tr_data tr <> [] /\ length (tr_times_matplotlib tr) = length (tr_data tr).
Proof.
  unfold trazar. destruct (lat_str_total (lat_sec L ahora tr)) as (ls & -> & _).
  cbn [mbind result_bind]. unfold peak, np_max.
  pose proof (data_cm_s2_length tr) as Hlen.
  destruct (np_abs (data_cm_s2 tr)) as [|p0 rest] eqn:Habs.
  - split; [done|]. intros [Hne _]. exfalso. apply Hne.
    unfold np_abs in Habs. apply map_eq_nil in Habs.
    rewrite Habs in Hlen. by destruct (tr_data tr).
  - cbn [mbind result_bind].
    assert (tr_data tr <> []) as Hne.
    { intros E. rewrite E in Hlen. unfold np_abs in Habs.
      destruct (data_cm_s2 tr); [done|]. done. }
    destruct (bool_index (tr_times_matplotlib tr) (np_isfinite (data_cm_s2 tr)))
      as [x|e] eqn:Hx; cbn [mbind result_bind].
    + unfold np_isfinite at 1. rewrite bool_index_filter. cbn.
      split; [|done]. intros _. split; [done|].
      apply bool_index_ok in Hx. by rewrite Hx, np_isfinite_length.
    + split; [done|]. intros [_ Heq]. exfalso.
      destruct (bool_index_total (tr_times_matplotlib tr) (np_isfinite (data_cm_s2 tr)))
        as (r & Hr); [by rewrite np_isfinite_length, Hlen|]. congruence.
Qed.

(** X10.  When the processed stream has no trace, or its first trace has no
    sample, the block raises and the station is shown without data. *)
Theorem empty_stream_is_sin_datos
    (L : ObsPy) (cl : client L) (ahora t_inicio t_fin : UTCDateTime)
    (nombres : gmap string string)
    (i : nat) (net full_sta loc cha : string) (st0 st1 st2 st3 st4 : Stream) :
  let sta := station_code full_sta in
  get_waveforms L cl i
    {| network := net; station := sta; location := loc; channel := cha;
       starttime := t_inicio; endtime := t_fin; attach_response := true |} = Ok st0 ->
  remove_response L "ACC" true true st0 = Ok st1 ->
  stream_filter L (highpass 0.1 4 true) st1 = Ok st2 ->
  stream_filter L (lowpass 10 4 true) st2 = Ok st3 ->
  stream_filter L (bandstop (PyInt 49) (PyInt 51) 2 true) st3 = Ok st4 ->
  (st4 = [] \/ exists tr rest, st4 = tr :: rest /\ tr_data tr = []) ->
  is_ok (intentar L cl ahora t_inicio t_fin i net sta loc cha new_axes) = false /\
  panel_texts (panel L cl ahora t_inicio t_fin nombres i (net, full_sta, loc, cha) new_axes)
    = ["[Sin datos] " +:+ sta; nombre_de nombres sta +:+ " (sin datos)"].
Proof.
  cbv zeta. intros H0 H1 H2 H3 H4 Hempty.
  assert (is_ok (intentar L cl ahora t_inicio t_fin i net (station_code full_sta) loc cha
                   new_axes) = false) as Hfail.
  { unfold intentar, obtener_traza. rewrite H0. cbn [mbind result_bind].
    rewrite H1. cbn [mbind result_bind]. rewrite H2. cbn [mbind result_bind].
    rewrite H3. cbn [mbind result_bind]. rewrite H4. cbn [mbind result_bind].
    destruct Hempty as [->|(tr & rest & -> & Hd)]; [done|].
    cbn [stream_getitem lookup list_lookup mbind result_bind].
    pose proof (trazar_succeeds_iff L ahora (station_code full_sta) tr new_axes) as Hiff.
    destruct (trazar L ahora (station_code full_sta) tr new_axes) eqn:E; [|done].
    cbn in Hiff. by destruct (proj1 Hiff eq_refl). }
  split; [done|].
  destruct (intentar L cl ahora t_inicio t_fin i net (station_code full_sta) loc cha new_axes)
    as [|exc] eqn:E; [done|].
  by rewrite (panel_texts_raise L cl ahora t_inicio t_fin nombres _ _ _ _ _ _ E).
Qed.

(** *** The peak *)

Lemma np_maximum_either (a b : float) : np_maximum a b = a \/ np_maximum a b = b.
Proof. unfold np_maximum. destruct (_ || _); auto. Qed.

Lemma fold_maximum_in (l : list float) (a : float) : In (fold_left np_maximum l a) (a :: l).
Proof.
  revert a. induction l as [|b l IH]; intros a; [by left|].
  cbn [fold_left]. destruct (IH (np_maximum a b)) as [H|H].
  - rewrite <- H. destruct (np_maximum_either a b) as [->| ->]; [by left|by right; left].
  - by right; right.
Qed.

Lemma ltb_abs_zero (v : float) : PrimFloat.ltb (PrimFloat.abs v) 0 = false.
Proof.
  rewrite FloatAxioms.ltb_spec, FloatAxioms.abs_spec.
  change (Prim2SF 0) with (S754_zero false).
  by destruct (Prim2SF v) as [[]|[]| |[] ? ?].
Qed.

Lemma is_nan_mul_100 (x : float) :
  PrimFloat.is_nan x = true -> PrimFloat.is_nan (x * 100) = true.
Proof.
  rewrite !is_nan_spec, mul_spec. intros Hx.
  by destruct (Prim2SF x).
Qed.

(** X11.  Whatever the samples are, the peak of the label is the absolute
    value of one of the scaled samples and is never below zero. *)
Theorem peak_is_abs_of_a_sample
    (L : ObsPy) (cl : client L) (ahora t_inicio t_fin : UTCDateTime)
    (i : nat) (net sta loc cha : string) (a : Axes) (ll ls : string) (a' : Axes) :
  intentar L cl ahora t_inicio t_fin i net sta loc cha a = Ok (ll, ls, a') ->
  exists tr v,
    obtener_traza L cl t_inicio t_fin i net sta loc cha = Ok tr /\
    In v (data_cm_s2 tr) /\
    ll = "[" +:+ format_float_f 2 (PrimFloat.abs v) +:+ " cm/s²] " +:+ sta /\
    PrimFloat.ltb (PrimFloat.abs v) 0 = false.
Proof.
  intros Hok.
  destruct (intentar_ok _ _ _ _ _ _ _ _ _ _ _ _ _ _ Hok) as (tr & Htr & Htz).
  destruct (trazar_ok _ _ _ _ _ _ _ _ Htz) as (p & x & _ & Hp & Hll & _).
  unfold peak, np_max in Hp.
  destruct (np_abs (data_cm_s2 tr)) as [|p0 rest] eqn:Habs; [done|].
  injection Hp as <-.
  pose proof (fold_maximum_in rest p0) as Hin. rewrite <- Habs in Hin.
  unfold np_abs in Hin. apply in_map_iff in Hin as (v & Hv & Hin).
  exists tr, v. rewrite Hv. split; [done|]. split; [done|]. split; [done|].
  rewrite <- Hv. apply ltb_abs_zero.
Qed.

(** X12.  When the block succeeds on a trace one of whose samples is NaN,
    the left label reads [[nan cm/s²]] and the station code: the NaN is not
    taken for missing data. *)
Theorem nan_sample_gives_nan_label
    (L : ObsPy) (cl : client L) (ahora t_inicio t_fin : UTCDateTime)
    (i : nat) (net sta loc cha : string) (a : Axes) (ll ls : string) (a' : Axes)
    (tr : Trace) :
  intentar L cl ahora t_inicio t_fin i net sta loc cha a = Ok (ll, ls, a') ->
  obtener_traza L cl t_inicio t_fin i net sta loc cha = Ok tr ->
  Exists (fun v => PrimFloat.is_nan v = true) (tr_data tr) ->
  ll = "[nan cm/s²] " +:+ sta.
Proof.
  intros Hok Htr Hnan.
  destruct (intentar_ok _ _ _ _ _ _ _ _ _ _ _ _ _ _ Hok) as (tr' & Htr' & Htz).
  rewrite Htr in Htr'. injection Htr' as <-.
  destruct (trazar_ok _ _ _ _ _ _ _ _ Htz) as (p & x & _ & Hp & Hll & _).
  unfold peak in Hp. rewrite np_max_nan in Hp.
  - injection Hp as <-. exact Hll.
  - apply List.Exists_exists in Hnan as (v & Hv & Hvn).
    apply List.Exists_exists. exists (PrimFloat.abs (v * 100)). split.
    + unfold np_abs, data_cm_s2, np_mul. apply in_map, in_map_iff. eauto.
    + rewrite is_nan_abs. by apply is_nan_mul_100.
Qed.

(** ** The panels *)

Section PanelFacts.

Context (L : ObsPy) (cl : client L).
Context (ahora t_inicio t_fin : UTCDateTime).
Context (nombres : gmap string string).

Local Abbreviation panel' := (panel L cl ahora t_inicio t_fin nombres).
Local Abbreviation intentar' := (intentar L cl ahora t_inicio t_fin).

(** X13.  Every panel holds exactly one line, with as many x values as y
    values (so [plot] never gets vectors of different lengths): the red line
    of two points when the block raises; when it succeeds a blue line that
    has as many points as the trace has finite scaled samples, never more
    than the trace has samples. *)
Theorem panel_has_one_line (i : nat) (net full_sta loc cha : string) :
  let sta := station_code full_sta in
  exists ln,
    ax_lines (panel' i (net, full_sta, loc, cha) new_axes) = [ln] /\
    length (line_x ln) = length (line_y ln) /\
    match intentar' i net sta loc cha new_axes with
    | Raise _ =>
        line_fmt ln = "r-" /\ length (line_y ln) = 2%nat
    | Ok _ =>
        line_fmt ln = "b-" /\
        exists tr, obtener_traza L cl t_inicio t_fin i net sta loc cha = Ok tr /\
          length (line_y ln) = length (List.filter PrimFloat.is_finite (data_cm_s2 tr)) /\
          (length (line_y ln) <= length (tr_data tr))%nat
    end.
Proof.
  cbv zeta.
  destruct (intentar' i net (station_code full_sta) loc cha new_axes)
    as [[[ll ls] a']|exc] eqn:E.
  - rewrite (panel_ok L cl ahora t_inicio t_fin nombres _ _ _ _ _ _ _ _ _ E).
    destruct (intentar_ok _ _ _ _ _ _ _ _ _ _ _ _ _ _ E) as (tr & Htr & Htz).
    destruct (trazar_ok _ _ _ _ _ _ _ _ Htz) as (p & x & _ & _ & _ & Hx & ->).
    eexists. split; [reflexivity|]. cbn [line_x line_y line_fmt].
    pose proof (bool_index_pairs _ _ _ _ Hx) as Hpairs.
    assert (length x = length (List.filter PrimFloat.is_finite (data_cm_s2 tr))) as Hlen.
    { apply bool_index_length in Hx. rewrite Hx. unfold np_isfinite.
      clear. induction (data_cm_s2 tr) as [|v d IH]; [done|].
      cbn. destruct (PrimFloat.is_finite v); cbn; lia. }
    split; [done|]. split; [done|]. exists tr. split; [done|]. split; [done|].
    rewrite <- (data_cm_s2_length tr). apply filter_length_le.
  - rewrite (panel_raise L cl ahora t_inicio t_fin nombres _ _ _ _ _ _ _ E).
    eexists. split; [reflexivity|]. done.
Qed.

(** X14.  The texts of a panel stand at fixed places: the left label right
    aligned at (-0.02, 1.0) and the display name left aligned at (1.02, 1.1),
    both in size 8, and, only when the block succeeded, the latency left
    aligned at (1.02, 0.35) in size 5. *)
Theorem panel_text_places (i : nat) (net full_sta loc cha : string) :
  List.map text_place (ax_texts (panel' i (net, full_sta, loc, cha) new_axes)) =
  [((-0.02)%float, 1%float, "right", "top", 8%Z);
   (1.02%float, 1.1%float, "left", "top", 8%Z)] ++
  (if is_ok (intentar' i net (station_code full_sta) loc cha new_axes)
   then [(1.02%float, 0.35%float, "left", "top", 5%Z)] else []).
Proof.
  destruct (intentar' i net (station_code full_sta) loc cha new_axes)
    as [[[ll ls] a']|exc] eqn:E.
  - rewrite (panel_ok L cl ahora t_inicio t_fin nombres _ _ _ _ _ _ _ _ _ E).
    destruct (intentar_ok _ _ _ _ _ _ _ _ _ _ _ _ _ _ E) as (tr & Htr & Htz).
    by destruct (trazar_ok _ _ _ _ _ _ _ _ Htz) as (p & x & _ & _ & _ & Hx & ->).
  - by rewrite (panel_raise L cl ahora t_inicio t_fin nombres _ _ _ _ _ _ _ E).
Qed.

(** The settings of a panel, with or without data. *)
Lemma panel_settings (i : nat) (e : estacion) :
  ax_settings (panel' i e new_axes) =
  (false, false, Some (matplotlib_date L t_inicio, matplotlib_date L t_fin),
   None, None, None).
Proof.
  destruct e as [[[net full_sta] loc] cha].
  destruct (intentar' i net (station_code full_sta) loc cha new_axes)
    as [[[ll ls] a']|exc] eqn:E.
  - rewrite (panel_ok L cl ahora t_inicio t_fin nombres _ _ _ _ _ _ _ _ _ E).
    destruct (intentar_ok _ _ _ _ _ _ _ _ _ _ _ _ _ _ E) as (tr & Htr & Htz).
    by destruct (trazar_ok _ _ _ _ _ _ _ _ Htz) as (p & x & _ & _ & _ & Hx & ->).
  - by rewrite (panel_raise L cl ahora t_inicio t_fin nombres _ _ _ _ _ _ _ E).
Qed.

End PanelFacts.

(** ** The figure and the run *)

(** Whatever is saved is the figure of the stations read. *)
Lemma main_saved (L : ObsPy) (argv : list string) (fs : gmap string (list string))
    (name : string) (fig : Figure) :
  saved (main L argv fs) = Some (name, fig) ->
  exists cl fn fc,
    Client L FDSN_SERVER_URL = Ok cl /\
    fs !! ARCHIVO_ESTACIONES_NOMBRE = Some fn /\
    fs !! ARCHIVO_ESTACIONES_CODIGO argv = Some fc /\
    leer_estaciones fc <> [] /\
    name = OUTPUT_FILENAME /\ fig = figura L cl fn fc.
Proof.
  rewrite main_unfold.
  destruct (Client L FDSN_SERVER_URL) as [cl|] eqn:Hcl; [|done].
  destruct (fs !! ARCHIVO_ESTACIONES_NOMBRE) as [fn|] eqn:Hfn; [|done].
  destruct (fs !! ARCHIVO_ESTACIONES_CODIGO argv) as [fc|] eqn:Hfc; [|done].
  destruct (leer_estaciones fc) as [|e rest] eqn:E; [done|].
  cbn [saved]. intros [= <- <-]. exists cl, fn, fc. by rewrite E.
Qed.

(** X15.  In the image that is saved every axes has its frame and its y
    axis hidden, the time window as x range and, the x axis being shared,
    the tick locators every 10 and every 5 minutes; the last axes, and no
    other, has the x label [Tiempo (Hora local)]. *)
Theorem saved_axes_settings
    (L : ObsPy) (argv : list string) (fs : gmap string (list string))
    (name : string) (fig : Figure) (j : nat) (a : Axes) :
  saved (main L argv fs) = Some (name, fig) ->
  fig_axes fig !! j = Some a ->
  let ahora := UTCDateTime_now L in
  let window := Some (matplotlib_date L (utc_minus_seconds ahora VENTANA_SEGUNDOS),
                      matplotlib_date L ahora) in
  ax_settings a =
  (false, false, window, Some 10%Z, Some 5%Z,
   if decide (S j = length (fig_axes fig)) then Some "Tiempo (Hora local)" else None).
Proof.
  intros (cl & fn & fc & Hcl & Hfn & Hfc & Hne & -> & ->)%main_saved Ha. cbv zeta.
  rewrite figura_length.
  assert (j < length (leer_estaciones fc))%nat as Hj.
  { apply lookup_lt_Some in Ha. by rewrite figura_length in Ha. }
  destruct (lookup_lt_is_Some_2 _ _ Hj) as [e He].
  rewrite (figura_lookup L cl fn fc j e He) in Ha. injection Ha as <-. cbv zeta.
  pose proof (panel_settings L cl (UTCDateTime_now L)
                (utc_minus_seconds (UTCDateTime_now L) VENTANA_SEGUNDOS)
                (UTCDateTime_now L) (leer_nombres fn) j e) as Hset.
  unfold ax_settings in *. injection Hset as H1 H2 H3 _ _ H6.
  destruct (decide (S j = length (leer_estaciones fc)));
    cbn [ax_set_xlabel ax_set_locators ax_spines_visible ax_yaxis_visible ax_xlim
         ax_major_minutes ax_minor_minutes ax_xlabel];
    by rewrite H1, H2, H3, ?H6.
Qed.

(** X16.  The height of the figure is never below the minimum of 3, for any
    number of stations: it is the integer 3, or the float [0.5 * N] when that
    is not below 3. *)
Theorem IMG_HEIGHT_INCHES_at_least_3 (n : nat) :
  py_lt (IMG_HEIGHT_INCHES n) (PyInt 3) = false /\
  (IMG_HEIGHT_INCHES n = PyInt 3 \/
   IMG_HEIGHT_INCHES n = PyFloat (0.5 * Z2float (Z.of_nat n)) /\
   PrimFloat.ltb (0.5 * Z2float (Z.of_nat n)) 3 = false).
Proof.
  unfold IMG_HEIGHT_INCHES, py_max, IMG_HEIGHT_PER_STATION.
  cbn [py_mul to_float]. unfold py_gt, py_lt, py_gt. cbn [to_float].
  rewrite Z2float_3.
  destruct (PrimFloat.ltb (0.5 * Z2float (Z.of_nat n)) 3) eqn:E.
  - split; [done|by left].
  - cbn [to_float]. split; [done|by right].
Qed.


(** X20.  The loop over the stations returns exactly when the list of axes
    is long enough for the indices it uses (or there is no station); it then
    leaves the number of axes as it was.  With fewer axes than stations the
    first index out of range raises. *)
Theorem graficar_bounds
    (L : ObsPy) (cl : client L) (ahora t_inicio t_fin : UTCDateTime)
    (nombres : gmap string string) (estaciones : list estacion) (i : nat) (ax : list Axes) :
  (is_ok (graficar L cl ahora t_inicio t_fin nombres i estaciones ax) = true <->
   estaciones = [] \/ (i + length estaciones <= length ax)%nat) /\
  (forall ax', graficar L cl ahora t_inicio t_fin nombres i estaciones ax = Ok ax' ->
               length ax' = length ax).
Proof.
  revert i ax. induction estaciones as [|e rest IH]; intros i ax.
  - split; [split; [by left|done]|]. by intros ax' [= <-].
  - cbn [graficar]. unfold graficar_estacion, ax_getitem.
    destruct (ax !! i) as [a|] eqn:Ha; cbn [mbind result_bind].
    + apply lookup_lt_Some in Ha.
      destruct (IH (S i) (<[i:=panel L cl ahora t_inicio t_fin nombres i e a]> ax))
        as [IH1 IH2]. rewrite length_insert in IH1, IH2.
      split; [|done]. rewrite IH1. cbn [length]. split.
      * intros [->|H]; right; cbn; lia.
      * intros [?|H]; [done|]. destruct rest; [by left|right; cbn in *; lia].
    + apply lookup_ge_None in Ha. split; [|done]. cbn [length].
      split; [done|]. intros [?|?]; [done|lia].
Qed.

(** ** The hypotheses of these properties hold on the small library *)

(** [leer_nombres_well_formed] on the third line of the small name file. *)
Lemma leer_nombres_well_formed_witness :
  leer_nombres demo_nombres !! "SJS" = Some "San José" /\
  is_token "SJS" /\ is_name "San José".
Proof.
  assert (leer_nombres demo_nombres !! "SJS" = Some "San José") as H
    by (vm_compute; reflexivity).
  split; [exact H|]. exact (leer_nombres_well_formed demo_nombres "SJS" "San José" H).
Defined.

(** [leer_nombres_skip]: a code followed by nothing but a no-break space,
    after its name line. *)
Lemma leer_nombres_skip_witness :
  (length (PyStr.split (PyStr.chars ("CDM" +:+ nbsp))) < 2)%nat /\
  leer_nombres (["CDM Uno"] ++ ("CDM" +:+ nbsp) :: ["SJS Dos"]) =
  leer_nombres (["CDM Uno"] ++ ["SJS Dos"]).
Proof.
  assert (length (PyStr.split (PyStr.chars ("CDM" +:+ nbsp))) < 2)%nat as H
    by (vm_compute; lia).
  split; [exact H|]. exact (leer_nombres_skip ["CDM Uno"] ["SJS Dos"] ("CDM" +:+ nbsp) H).
Defined.

(** [empty_stream_is_sin_datos] with a server that returns a stream without
    traces. *)
Lemma empty_stream_witness :
  panel_texts (panel (servidor_sin_trazas demo) tt demo_ahora demo_t_inicio demo_ahora
                 (leer_nombres demo_nombres) 0 ("OV", "OV.CDM", "*", "H*") new_axes)
  = ["[Sin datos] CDM"; "Cerro de la Muerte (sin datos)"].
Proof.
  destruct (empty_stream_is_sin_datos (servidor_sin_trazas demo) tt demo_ahora demo_t_inicio
              demo_ahora (leer_nombres demo_nombres) 0 "OV" "OV.CDM" "*" "H*" [] [] [] [] [])
    as [_ H]; [reflexivity..|by left|].
  rewrite H. vm_compute. reflexivity.
Defined.

(** [empty_stream_is_sin_datos] with a server whose trace has no sample. *)
Example empty_trace_ex :
  panel_texts (panel (servidor_de traza_vacia demo) tt demo_ahora demo_t_inicio demo_ahora
                 (leer_nombres demo_nombres) 0 ("OV", "OV.CDM", "*", "H*") new_axes)
  = ["[Sin datos] CDM"; "Cerro de la Muerte (sin datos)"].
Proof. vm_compute. reflexivity. Qed.

(** [peak_is_abs_of_a_sample] at station [SJS]. *)
Lemma peak_witness :
  exists ll ls a',
    intentar demo tt demo_ahora demo_t_inicio demo_ahora 2 "TC" "SJS" "*" "H*" new_axes
      = Ok (ll, ls, a') /\
    exists tr v,
      obtener_traza demo tt demo_t_inicio demo_ahora 2 "TC" "SJS" "*" "H*" = Ok tr /\
      In v (data_cm_s2 tr) /\
      ll = "[" +:+ format_float_f 2 (PrimFloat.abs v) +:+ " cm/s²] SJS".
Proof.
  eexists _, _, _. split; [vm_compute; reflexivity|].
  destruct (peak_is_abs_of_a_sample demo tt demo_ahora demo_t_inicio demo_ahora
              2 "TC" "SJS" "*" "H*" new_axes _ _ _ ltac:(vm_compute; reflexivity))
    as (tr & v & Htr & Hv & Hll & _).
  exists tr, v. repeat split; assumption.
Defined.

(** [nan_sample_gives_nan_label] with a server whose trace has a NaN. *)
Lemma nan_label_witness :
  exists ll ls a',
    intentar (servidor_de traza_nan demo) tt demo_ahora demo_t_inicio demo_ahora
      0 "OV" "CDM" "*" "H*" new_axes = Ok (ll, ls, a') /\
    ll = "[nan cm/s²] CDM" /\
    List.map line_x (ax_lines a') = [[1; 3]%float].
Proof.
  eexists _, _, _. split; [vm_compute; reflexivity|]. split; [|reflexivity].
  eapply (nan_sample_gives_nan_label (servidor_de traza_nan demo) tt demo_ahora demo_t_inicio
            demo_ahora 0 "OV" "CDM" "*" "H*" new_axes).
  - vm_compute. reflexivity.
  - vm_compute. reflexivity.
  - right. left. reflexivity.
Defined.

(** [saved_axes_settings] on the first and on the last of the three panels
    of the small run. *)
Lemma saved_axes_settings_witness :
  exists fig a c,
    saved (main demo ["fsdn2plot.py"] demo_fs) = Some (OUTPUT_FILENAME, fig) /\
    fig_axes fig !! 0%nat = Some a /\
    fig_axes fig !! 2%nat = Some c /\
    ax_major_minutes a = Some 10%Z /\ ax_xlabel a = None /\
    ax_major_minutes c = Some 10%Z /\ ax_xlabel c = Some "Tiempo (Hora local)".
Proof.
  pose (fig := figura demo tt demo_nombres demo_codigos).
  assert (saved (main demo ["fsdn2plot.py"] demo_fs) = Some (OUTPUT_FILENAME, fig)) as Hs
    by (vm_compute; reflexivity).
  destruct (fig_axes fig !! 0%nat) as [a|] eqn:Ha; [|vm_compute in Ha; discriminate].
  destruct (fig_axes fig !! 2%nat) as [c|] eqn:Hc; [|vm_compute in Hc; discriminate].
  pose proof (saved_axes_settings demo ["fsdn2plot.py"] demo_fs _ fig 0 a Hs Ha) as H0.
  pose proof (saved_axes_settings demo ["fsdn2plot.py"] demo_fs _ fig 2 c Hs Hc) as H2.
  exists fig, a, c. split; [exact Hs|]. split; [exact Ha|]. split; [exact Hc|].
  cbv zeta in H0, H2.
  replace (length (fig_axes fig)) with 3%nat in H0, H2 by (vm_compute; reflexivity).
  unfold ax_settings in H0, H2.
  destruct (decide (1 = 3)%nat) as [Heq|_]; [discriminate Heq|].
  destruct (decide (3 = 3)%nat) as [_|Hne]; [|by destruct Hne].
  injection H0 as _ _ _ H04 _ H06. injection H2 as _ _ _ H24 _ H26. by repeat split.
Defined.

(** * The script at work *)

Example chars_ex :
  PyStr.chars ("José" +:+ nbsp +:+ "x" +:+ ideographic_space) =
  ["J"; "o"; "s"; "é"; nbsp; "x"; ideographic_space].
Proof. reflexivity. Qed.

Example isspace_ex :
  List.map PyStr.isspace [" "; String "009" ""; nbsp; em_space; ideographic_space;
                          PyStr.utf8 [194; 133]; "a"; "é"; PyStr.utf8 [226; 128; 139];
                          PyStr.utf8 [239; 187; 191]]%nat =
  [true; true; true; true; true; true; false; false; false; false].
Proof. reflexivity. Qed.

Example split_ex1 :
  PyStr.join <$> PyStr.split (PyStr.chars "  OV  OV.CDM   x ") = ["OV"; "OV.CDM"; "x"].
Proof. reflexivity. Qed.

Example split_ex2 :
  PyStr.split (PyStr.strip (PyStr.chars (String "009" (String "010" "")))) = [].
Proof. reflexivity. Qed.

Example split_ex3 :
  PyStr.join <$> PyStr.split (PyStr.chars ("OV" +:+ nbsp +:+ "CDM" +:+ em_space)) =
  ["OV"; "CDM"].
Proof. reflexivity. Qed.

Example split1_ex1 :
  PyStr.join <$> PyStr.split1 (PyStr.strip (PyStr.chars " CDM   Cerro de la Muerte  ")) =
  ["CDM"; "Cerro de la Muerte"].
Proof. reflexivity. Qed.

Example split1_ex2 :
  PyStr.join <$> PyStr.split1 (PyStr.strip (PyStr.chars " CDM  ")) = ["CDM"].
Proof. reflexivity. Qed.

(** Lines with Unicode spaces: a no-break space separates like a space,
    and is stripped from the end of a name. *)
Example descriptor_ex :
  List.map descriptor ["OV" +:+ nbsp +:+ "CDM"; "OV" +:+ ideographic_space +:+ "OV.CDM x";
                       nbsp +:+ "OV" +:+ em_space; "OV CDMé"] =
  [Some ("OV", "CDM", "*", "H*"); Some ("OV", "OV.CDM", "*", "H*"); None;
   Some ("OV", "CDMé", "*", "H*")].
Proof. reflexivity. Qed.

Example name_entry_ex :
  List.map name_entry ["SJS" +:+ em_space +:+ "San José"; "CDM Cerro" +:+ nbsp;
                       "CDM" +:+ nbsp +:+ "Cerro"; "CDM" +:+ nbsp] =
  [Some ("SJS", "San José"); Some ("CDM", "Cerro"); Some ("CDM", "Cerro"); None].
Proof. reflexivity. Qed.

Example split_on_ex1 : PyStr.split_on "." "OV.CDM" = ["OV"; "CDM"].
Proof. reflexivity. Qed.

Example split_on_ex2 : PyStr.split_on "." "a..b" = ["a"; ""; "b"].
Proof. reflexivity. Qed.

Example split_on_ex3 : PyStr.split_on "." "" = [""].
Proof. reflexivity. Qed.

Example station_code_ex :
  List.map station_code ["OV.CDM"; "CDM"; "a.b.c"; "OV."; ".CDM"; ""] =
  ["CDM"; "CDM"; "a.b.c"; ""; "CDM"; ""].
Proof. reflexivity. Qed.

Example format_ex :
  List.map (format_float_f 2) [0.125; 0.135; 2.675; 123456.789; -0.001; infinity; nan]%float =
  ["0.12"; "0.14"; "2.67"; "123456.79"; "-0.00"; "inf"; "nan"].
Proof. vm_compute. reflexivity. Qed.

Example format_ex1 :
  List.map (py_format_f 1) [PyInt 0; PyFloat 59.96; PyFloat 0.25; PyFloat 1.25] =
  ["0.0"; "60.0"; "0.2"; "1.2"].
Proof. vm_compute. reflexivity. Qed.

Example np_max_ex :
  List.map np_max [[1; nan; 3]; [1; 3; 2]; [1; infinity; 2]; []]%float =
  [Ok nan; Ok 3%float; Ok infinity; Raise (Exception "ValueError")].
Proof. vm_compute. reflexivity. Qed.

Example lat_str_ex :
  List.map (fun d => lat_str (py_max (PyInt 0) (PyFloat d))) [-5; 0; 12.5; 59.96; 60; 75; nan]%float =
  [Ok "(latencia 0.0s)"; Ok "(latencia 0.0s)"; Ok "(latencia 12.5s)"; Ok "(latencia 60.0s)";
   Ok "(latencia 1.0m)"; Ok "(latencia 1.2m)"; Ok "(latencia 0.0s)"].
Proof. vm_compute. reflexivity. Qed.

Example height_ex :
  List.map IMG_HEIGHT_INCHES [1; 5; 6; 7; 10]%nat =
  [PyInt 3; PyInt 3; PyFloat 3; PyFloat 3.5; PyFloat 5].
Proof. vm_compute. reflexivity. Qed.

Example leer_estaciones_ex :
  leer_estaciones demo_codigos =
  [("OV", "OV.CDM", "*", "H*"); ("OV", "JACO", "*", "H*"); ("TC", "SJS", "*", "H*")].
Proof. reflexivity. Qed.

Example leer_nombres_ex :
  List.map (nombre_de (leer_nombres demo_nombres)) ["CDM"; "XYZ"; "SJS"; "JACO"] =
  ["Cerro de la Muerte"; "XYZ"; "San José"; "JACO"].
Proof. vm_compute. reflexivity. Qed.

(** The order of the steps shows in the samples: [((x + 1) * 2 - 3)²]. *)
Example obtener_traza_ex :
  tr_data <$> obtener_traza demo tt demo_t_inicio demo_ahora 2 "TC" "SJS" "*" "H*" =
  Ok (List.map (fun x => ((x + 1) * 2 - 3) * ((x + 1) * 2 - 3))%float (tr_data sjs_trace)).
Proof. vm_compute. reflexivity. Qed.

(** A whole run: three panels, the second without data. *)
Example main_ex :
  let o := main demo ["fsdn2plot.py"] demo_fs in
  exit_code o = 0%Z /\
  (fun p => (fig_width p.2, fig_height p.2, List.map panel_texts (fig_axes p.2))) <$> saved o =
  Some (PyInt 9, PyInt 3,
        [["[inf cm/s²] CDM"; "Cerro de la Muerte"; "(latencia 1.2m)"];
         ["[Sin datos] JACO"; "JACO (sin datos)"];
         ["[3025.00 cm/s²] SJS"; "San José"; "(latencia 12.5s)"]]).
Proof. vm_compute. split; reflexivity. Qed.

Example main_ex_lines :
  (fun p => List.map (fun a => List.map line_y (ax_lines a)) (fig_axes p.2))
    <$> saved (main demo ["fsdn2plot.py"] demo_fs) =
  Some [[[99.60040000000005; 110.4601; 96.039999999999992]];
        [[0; 0]];
        [[400; 3025; 0]]]%float.
Proof. vm_compute. reflexivity. Qed.

(** No station file under the name given on the command line. *)
Example main_ex_missing :
  main demo ["fsdn2plot.py"; "otra_lista.txt"] demo_fs =
  {| exit_code := 1; stdout := []; traceback := Some (Exception "FileNotFoundError");
     saved := None |}.
Proof. vm_compute. reflexivity. Qed.

(** A station file without a usable line. *)
Example main_ex_empty :
  main demo ["fsdn2plot.py"; "vacia.txt"] (<["vacia.txt" := ["solo"; " "]]> demo_fs) =
  {| exit_code := 1; stdout := ["No hay estaciones definidas."]; traceback := None;
     saved := None |}.
Proof. vm_compute. reflexivity. Qed.

(** Eight stations: the height is 4 and every axes has the locators of the
    shared x axis, the last one the label. *)
Example main_ex_ocho :
  (fun p => (fig_height p.2,
             List.map (fun a => (ax_major_minutes a, ax_minor_minutes a)) (fig_axes p.2),
             List.map ax_xlabel (fig_axes p.2)))
    <$> saved (main demo ["fsdn2plot.py"; "ocho.txt"] ocho_fs) =
  Some (PyFloat 4, replicate 8 (Some 10%Z, Some 5%Z),
        replicate 7 None ++ [Some "Tiempo (Hora local)"]).
Proof. vm_compute. reflexivity. Qed.

(** A name file that opens and does not decode: traceback, status 1, no
    image. *)
Example proceso_ex_ilegible :
  proceso demo entorno_ilegible ["fsdn2plot.py"] =
  {| exit_code := 1; stdout := []; traceback := Some (Exception "UnicodeDecodeError");
     saved := None |}.
Proof. vm_compute. reflexivity. Qed.

(** An image that cannot be written: traceback, status 1, no image. *)
Example proceso_ex_sin_disco :
  proceso demo entorno_sin_disco ["fsdn2plot.py"] =
  {| exit_code := 1; stdout := []; traceback := Some (Exception "PermissionError");
     saved := None |}.
Proof. vm_compute. reflexivity. Qed.

(** A standard output that cannot take the last line: the image is written,
    then traceback and status 1. *)
Example proceso_ex_sin_utf8 :
  let o := proceso demo entorno_sin_utf8 ["fsdn2plot.py"] in
  (exit_code o, stdout o, traceback o, fst <$> saved o) =
  (1%Z, [], Some (Exception "UnicodeEncodeError"), Some "fdsn2plot.png").
Proof. vm_compute. reflexivity. Qed.

(** The same output with a station file without a usable line: the message
    is plain ASCII and is printed. *)
Example proceso_ex_sin_utf8_vacia :
  proceso demo
    {| archivos := <["vacia.txt" := Ok ["solo"; " "]]> (archivos entorno_sin_utf8);
       plt_savefig := plt_savefig entorno_sin_utf8;
       plt_show := plt_show entorno_sin_utf8;
       py_print := py_print entorno_sin_utf8 |}
    ["fsdn2plot.py"; "vacia.txt"] =
  {| exit_code := 1; stdout := ["No hay estaciones definidas."]; traceback := None;
     saved := None |}.
Proof. vm_compute. reflexivity. Qed.
